(** * hw-app-concordium: serialization, frame splitting and staged signing

    A shallow embedding of [src/src/utils.ts], [src/src/serialization.ts]
    and [src/src/Concordium.ts].

    - JS [Buffer]s are [list byte].
    - A JS [number] given to the fixed-width encoders is a rational [Q]
      (every finite double is one); a [bigint] is a [Z].
    - A call that may [throw] returns [result A]; code that mutates the
      caller's transaction object threads it as explicit state. *)

From Stdlib Require Import ZArith QArith String Ascii List Bool Lia.
From Stdlib Require Import Strings.Byte.
Import ListNotations.

Local Open Scope Z_scope.

(** ** Results of code that may throw *)

Inductive JsError : Type :=
  | EncodingError (what : string) (value : Q)
      (** [new Error('The input has to be a ... but it was: ' + value)] *)
  | BufferRangeError    (** Node's [ERR_OUT_OF_RANGE] from [buf.write*] / [read*] *)
  | TypeErr             (** a JS [TypeError] (property of undefined, ...) *)
  | UserDeclined        (** [new Error("User has declined.")] *)
  | TransportErr        (** any failure reported by [transport.send] *)
  | DataBlobTooLong.    (** the [Error] of the SDK's [DataBlob] constructor *)

Inductive result (A : Type) : Type :=
  | Ok (a : A)
  | Throw (e : JsError).
Arguments Ok {A} a.
Arguments Throw {A} e.

Definition bind {A B} (m : result A) (k : A -> result B) : result B :=
  match m with
  | Ok a => k a
  | Throw e => Throw e
  end.

Notation "'let*' x ':=' m 'in' k" := (bind m (fun x => k))
  (at level 200, x name, m at level 100, k at level 200).

Fixpoint mapM {A B} (f : A -> result B) (l : list A) : result (list B) :=
  match l with
  | [] => Ok []
  | x :: r => let* y := f x in let* ys := mapM f r in Ok (y :: ys)
  end.

(** ** Bytes *)

(** ToUint8: the octet a JS typed array stores for an integer. *)
Definition byteOfZ (z : Z) : byte :=
  match Byte.of_N (Z.to_N (z mod 256)) with
  | Some b => b
  | None => x00
  end.

Definition ZofByte (b : byte) : Z := Z.of_N (Byte.to_N b).

(** [n] octets of [v] big-endian, modulo [2^(8n)] (what [DataView.setUintN]
    / [setBigUint64] and [buf.writeUInt32BE] store). *)
Fixpoint beBytes (n : nat) (v : Z) : list byte :=
  match n with
  | O => []
  | S k => beBytes k (Z.shiftr v 8) ++ [byteOfZ v]
  end.

(** Big-endian reading, as [buf.readUInt8] / [readUInt16BE] / [readUInt32BE]. *)
Definition readBE (l : list byte) : Z :=
  fold_left (fun acc b => acc * 256 + ZofByte b) l 0.

(** [buf.subarray(start, end)]: negative indices count from the end, both
    are clamped to [0, length]. *)
Definition relIndex (len : Z) (i : Z) : Z :=
  if i <? 0 then Z.max (len + i) 0 else Z.min i len.

Definition subarray (l : list byte) (start stop : Z) : list byte :=
  let len := Z.of_nat (length l) in
  let s := relIndex len start in
  let e := relIndex len stop in
  firstn (Z.to_nat (e - s)) (skipn (Z.to_nat s) l).

(** [buf.readUIntNBE(0)] on a buffer of the given width: Node throws when the
    buffer is too short. *)
Definition readUIntBE (width : nat) (l : list byte) : result Z :=
  if (length l <? width)%nat then Throw BufferRangeError
  else Ok (readBE (firstn width l)).

(** ** Fixed-width encoders ([utils.ts], [unnamed/part_001]) *)

(** [Number.isInteger] on a finite number. *)
Definition isInteger (v : Q) : bool := Qnum v mod Z.pos (Qden v) =? 0.

(** The integer value of an integral [Q]. *)
Definition Qint (v : Q) : Z := Qnum v / Z.pos (Qden v).

Definition Qgt (v : Q) (bound : Z) : bool := negb (Qle_bool v (inject_Z bound)).
Definition Qlt (v : Q) (bound : Z) : bool := negb (Qle_bool (inject_Z bound) v).

(** [encodeInt8]: [Buffer.of(value)] stores [value] modulo 256. *)
Definition encodeInt8 (value : Q) : result (list byte) :=
  if Qgt value 127 || Qlt value (-128) || negb (isInteger value)
  then Throw (EncodingError "8 bit signed integer" value)
  else Ok [byteOfZ (Qint value)].

Definition encodeWord16 (value : Q) : result (list byte) :=
  if Qgt value 65535 || Qlt value 0 || negb (isInteger value)
  then Throw (EncodingError "16 bit unsigned integer" value)
  else Ok (beBytes 2 (Qint value)).

Definition encodeInt32 (value : Q) : result (list byte) :=
  if Qlt value (-2147483648) || Qgt value 2147483647 || negb (isInteger value)
  then Throw (EncodingError "32 bit signed integer" value)
  else Ok (beBytes 4 (Qint value)).

Definition encodeWord32 (value : Q) : result (list byte) :=
  if Qgt value 4294967295 || Qlt value 0 || negb (isInteger value)
  then Throw (EncodingError "32 bit unsigned integer" value)
  else Ok (beBytes 4 (Qint value)).

(** The bound of [encodeWord64] is [BigInt(18446744073709551615)]: the
    literal is a JS number, and the double nearest to [2^64 - 1] is [2^64]. *)
Definition WORD64_BOUND : Z := 18446744073709551616.

(** [encodeWord64] on a [bigint]: [setBigUint64] stores the value modulo
    [2^64]. *)
Definition encodeWord64 (value : Z) : result (list byte) :=
  if (WORD64_BOUND <? value) || (value <? 0)
  then Throw (EncodingError "64 bit unsigned integer" (inject_Z value))
  else Ok (beBytes 8 value).

(** [encodeDataBlob]: 16-bit length prefix, then the blob's bytes. *)
Definition encodeDataBlob (data : list byte) : result (list byte) :=
  let* len := encodeWord16 (inject_Z (Z.of_nat (length data))) in
  Ok (len ++ data).

(** ** Derivation paths ([serialization.ts]: [splitPath], [serializePath]) *)

(** JS white space among the 8-bit characters: TAB, LF, VT, FF, CR, SPACE
    and NBSP. *)
Definition isJsWhiteSpace (c : ascii) : bool :=
  let n := nat_of_ascii c in
  ((n =? 9) || (n =? 10) || (n =? 11) || (n =? 12) || (n =? 13)
   || (n =? 32) || (n =? 160))%nat.

Fixpoint trimStart (s : string) : string :=
  match s with
  | String c r => if isJsWhiteSpace c then trimStart r else s
  | EmptyString => EmptyString
  end.

Fixpoint digitPrefix (s : string) : list Z :=
  match s with
  | String c r =>
      let n := Z.of_nat (nat_of_ascii c) in
      if (48 <=? n) && (n <=? 57) then (n - 48) :: digitPrefix r else []
  | EmptyString => []
  end.

(** [parseInt(s, 10)]; [None] is [NaN]. The value is exact; JS rounds values
    beyond [2^53], which are all outside the 32-bit range checked later. *)
Definition parseInt10 (s : string) : option Z :=
  let t := trimStart s in
  let '(sign, rest) :=
    match t with
    | String "-" r => (-1, r)
    | String "+" r => (1, r)
    | _ => (1, t)
    end in
  match digitPrefix rest with
  | [] => None
  | ds => Some (sign * fold_left (fun acc d => acc * 10 + d) ds 0)
  end.

(** [s.split(sep)] for a one-character separator. *)
Fixpoint splitOn (sep : ascii) (s : string) : list string :=
  match s with
  | EmptyString => [EmptyString]
  | String c r =>
      if Ascii.eqb c sep then EmptyString :: splitOn sep r
      else match splitOn sep r with
           | h :: t => String c h :: t
           | [] => [String c EmptyString]
           end
  end.

(** [element.length > 1 && element[element.length - 1] === "'"] *)
Definition isHardened (element : string) : bool :=
  (1 <? String.length element)%nat
  && match String.get (String.length element - 1) element with
     | Some c => Ascii.eqb c "'"
     | None => false
     end.

Definition HARDENED_OFFSET : Z := 2147483648.

Definition splitPath (path : string) : list Z :=
  flat_map (fun element =>
              match parseInt10 element with
              | None => []
              | Some number =>
                  [if isHardened element then number + HARDENED_OFFSET else number]
              end)
           (splitOn "/" path).

(** [buf.writeUInt32BE(num, off)]: Node throws outside [0, 2^32 - 1]. *)
Definition writeUInt32BE (num : Z) : result (list byte) :=
  if (num <? 0) || (4294967295 <? num) then Throw BufferRangeError
  else Ok (beBytes 4 num).

(** [serializePath]; [writeUInt8] throws when the count exceeds 255. *)
Definition serializePath (path : list Z) : result (list byte) :=
  if 255 <? Z.of_nat (length path) then Throw BufferRangeError
  else
    let* comps := mapM writeUInt32BE path in
    Ok (byteOfZ (Z.of_nat (length path)) :: concat comps).

(** The path prefix built inside
    [serializeTransactionPayloadsWithDerivationPath]:
    [pathBuffer[0] = paths.length] (a typed-array store, modulo 256), then
    [writeUInt32BE] per component. *)
Definition derivationPathBuffer (paths : list Z) : result (list byte) :=
  let* comps := mapM writeUInt32BE paths in
  Ok (byteOfZ (Z.of_nat (length paths)) :: concat comps).

(** ** Frame splitter ([serialization.ts]) *)

Definition MAX_CHUNK_SIZE : nat := 255.
Definition MAX_SCHEDULE_CHUNK_SIZE : Z := 15.

(** [chunkSize = offset + MAX_CHUNK_SIZE > rawTx.length ? rawTx.length - offset
    : MAX_CHUNK_SIZE] *)
Definition chunkSizeAt (len offset : nat) : nat :=
  if (len <? offset + MAX_CHUNK_SIZE)%nat then (len - offset)%nat else MAX_CHUNK_SIZE.

(** The [while (offset !== rawTx.length)] loop; every round advances [offset],
    so [length rawTx + 1] rounds of fuel are enough. *)
Fixpoint payloadsLoop (fuel : nat) (rawTx : list byte) (offset : nat)
  : list (list byte) :=
  match fuel with
  | O => []
  | S fuel' =>
      if (offset =? length rawTx)%nat then []
      else
        let chunkSize := chunkSizeAt (length rawTx) offset in
        firstn chunkSize (skipn offset rawTx)
          :: payloadsLoop fuel' rawTx (offset + chunkSize)
  end.

Definition serializeTransactionPayloads (rawTx : list byte) : list (list byte) :=
  payloadsLoop (S (length rawTx)) rawTx 0.

(** The same loop, with [pathBuffer] copied in front of the chunk when
    [offset === 0]. *)
Fixpoint payloadsWithPathLoop (fuel : nat) (pathBuffer rawTx : list byte)
  (offset : nat) : list (list byte) :=
  match fuel with
  | O => []
  | S fuel' =>
      if (offset =? length rawTx)%nat then []
      else
        let chunkSize := chunkSizeAt (length rawTx) offset in
        let chunk := firstn chunkSize (skipn offset rawTx) in
        (if (offset =? 0)%nat then pathBuffer ++ chunk else chunk)
          :: payloadsWithPathLoop fuel' pathBuffer rawTx (offset + chunkSize)
  end.

Definition serializeTransactionPayloadsWithDerivationPath (path : string)
  (rawTx : list byte) : result (list (list byte)) :=
  let paths := splitPath path in
  let* pathBuffer := derivationPathBuffer paths in
  Ok (payloadsWithPathLoop (S (length rawTx)) pathBuffer rawTx 0).

(** The frames with the path prefix taken off the first one. *)
Definition removePathPrefix (pathBuffer : list byte) (frames : list (list byte))
  : list (list byte) :=
  match frames with
  | [] => []
  | f :: rest => skipn (length pathBuffer) f :: rest
  end.

(** ** Transactions and their header ([utils.ts]) *)

(** The header fields of a transaction object. [sender] is
    [AccountAddress.toBuffer(txn.sender)]; the numeric fields are [bigint]s. *)
Record TxHeader : Type := {
  sender : list byte;
  nonce : Z;
  energyAmount : Z;
  expiry : Z;
  transactionKind : Z
}.

(** [serializeAccountTransactionHeader(txn, payloadSize)] *)
Definition serializeAccountTransactionHeader (h : TxHeader) (payloadSize : Q)
  : result (list byte) :=
  let* serializedNonce := encodeWord64 (nonce h) in
  let* serializedEnergyAmount := encodeWord64 (energyAmount h) in
  let* serializedPayloadSize := encodeWord32 payloadSize in
  let* serializedExpiry := encodeWord64 (expiry h) in
  Ok (sender h ++ serializedNonce ++ serializedEnergyAmount
        ++ serializedPayloadSize ++ serializedExpiry).

(** [Buffer.from(Uint8Array.of(txn.transactionKind))] *)
Definition serializedTypeOf (h : TxHeader) : list byte := [byteOfZ (transactionKind h)].

(** A payload size as the JS number the code computes. *)
Definition sizeQ (n : nat) : Q := inject_Z (Z.of_nat n).

(** [serializeAccountTransaction]: [serializedPayload] is the output of the
    SDK's per-kind handler, [getAccountTransactionHandler(kind).serialize]. *)
Definition serializeAccountTransaction (h : TxHeader) (serializedPayload : list byte)
  : result (list byte) :=
  let serializedType := serializedTypeOf h in
  let* serializedHeader :=
    serializeAccountTransactionHeader h (sizeQ (length serializedPayload + 1)) in
  Ok (serializedHeader ++ serializedType ++ serializedPayload).

(** [serializeTransaction] (simple transfer, configure delegation, deploy
    module, init and update contract). *)
Definition serializeTransaction (h : TxHeader) (serializedPayload : list byte)
  (path : string) : result (list (list byte)) :=
  let* txSerialized := serializeAccountTransaction h serializedPayload in
  serializeTransactionPayloadsWithDerivationPath path txSerialized.

(** A property of the transaction object that the memo and data serializers
    read as a string and then overwrite with a [DataBlob]. *)
Inductive JsField : Type :=
  | JsString (s : string)
  | JsDataBlob (data : list byte).

(** [NodeBuffer.from(s, 'utf-8')]; a [string] here is a sequence of code
    points below 256. *)
Definition utf8OfChar (c : ascii) : list byte :=
  let n := Z.of_nat (nat_of_ascii c) in
  if n <? 128 then [byteOfZ n]
  else [byteOfZ (192 + n / 64); byteOfZ (128 + n mod 64)].

Fixpoint utf8Encode (s : string) : list byte :=
  match s with
  | EmptyString => []
  | String c r => utf8OfChar c ++ utf8Encode r
  end.

(** [NodeBuffer.from(value, 'utf-8')] on the field's current value: a
    [DataBlob] object is none of the kinds [Buffer.from] accepts. *)
Definition bufferFromField (f : JsField) : result (list byte) :=
  match f with
  | JsString s => Ok (utf8Encode s)
  | JsDataBlob _ => Throw TypeErr
  end.

(** [new DataBlob(buffer)]: the constructor of the SDK's [DataBlob]
    ([@concordium/common-sdk/lib/types/DataBlob], not part of this
    repository) throws when the buffer is longer than 256 bytes, and
    otherwise wraps the buffer. *)
Definition newDataBlob (data : list byte) : result JsField :=
  if (256 <? length data)%nat then Throw DataBlobTooLong else Ok (JsDataBlob data).

(** [blob.data] inside [encodeDataBlob(blob)]: a string has no [data]
    property, and [undefined.length] throws. *)
Definition blobData (f : JsField) : result (list byte) :=
  match f with
  | JsDataBlob d => Ok d
  | JsString _ => Throw TypeErr
  end.

Definition subarrayFrom (l : list byte) (start : Z) : list byte :=
  subarray l start (Z.of_nat (length l)).

(** *** Transfer with memo *)

Record MemoPayload : Type := {
  mp_toAddress : list byte;   (** [AccountAddress.toBuffer(toAddress)] *)
  mp_memo : JsField;
  mp_amount : Z               (** [amount.microCcdAmount] *)
}.

Record MemoTxn : Type := { mt_header : TxHeader; mt_payload : MemoPayload }.

Definition setMemo (txn : MemoTxn) (v : JsField) : MemoTxn :=
  {| mt_header := mt_header txn;
     mt_payload := {| mp_toAddress := mp_toAddress (mt_payload txn);
                      mp_memo := v;
                      mp_amount := mp_amount (mt_payload txn) |} |}.

Record MemoFrames : Type := {
  payloadHeaderAddressMemoLength : list (list byte);
  payloadsMemo : list (list byte);
  payloadsAmount : list (list byte)
}.

(** [serializeSimpleTransferWithMemo(txn, path)]: the transaction is threaded
    as state, because the function assigns [txn.payload.memo]. *)
Definition serializeSimpleTransferWithMemo (path : string) (txn : MemoTxn)
  : result MemoFrames * MemoTxn :=
  match bufferFromField (mp_memo (mt_payload txn)) with
  | Throw e => (Throw e, txn)
  | Ok memoBuffer =>
      match newDataBlob memoBuffer with
      | Throw e => (Throw e, txn)
      | Ok blob =>
      let txn := setMemo txn blob in
      let h := mt_header txn in
      let res :=
        let serializedType := serializedTypeOf h in
        let serializedToAddress := mp_toAddress (mt_payload txn) in
        let* serializedAmount := encodeWord64 (mp_amount (mt_payload txn)) in
        let* memoData := blobData (mp_memo (mt_payload txn)) in
        let* serializedMemo := encodeDataBlob memoData in
        let memoLength := subarray serializedMemo 0 2 in
        let payloadSize := (length serializedType + length serializedMemo
                            + length serializedAmount + length serializedToAddress)%nat in
        let* serializedHeader := serializeAccountTransactionHeader h (sizeQ payloadSize) in
        let serializedHeaderAddressMemoLength :=
          serializedHeader ++ serializedType ++ serializedToAddress ++ memoLength in
        let* p0 := serializeTransactionPayloadsWithDerivationPath path
                     serializedHeaderAddressMemoLength in
        Ok {| payloadHeaderAddressMemoLength := p0;
              payloadsMemo := serializeTransactionPayloads (subarrayFrom serializedMemo 2);
              payloadsAmount := serializeTransactionPayloads serializedAmount |} in
      (res, txn)
      end
  end.

(** *** Scheduled transfers *)

(** One [(timestamp, amount)] pair: [encodeWord64] of each, concatenated. *)
Definition serializeScheduleItem (item : Z * Z) : result (list byte) :=
  let* timestampBuffer := encodeWord64 (fst item) in
  let* amountBuffer := encodeWord64 (snd item) in
  Ok (timestampBuffer ++ amountBuffer).

(** The [for (let i = 0; i < scheduleBuffer.length; i += MAX_SCHEDULE_CHUNK_SIZE)]
    loop; [remainingPairs] is reset to [schedule.length - 15] after every
    round, as in the source. Each round advances [i] by 15, so
    [scheduleBuffer.length + 1] rounds of fuel are enough. *)
Fixpoint scheduleLoop (fuel : nat) (n : Z) (serializedSchedule : list byte)
  (i remainingPairs : Z) : list (list byte) :=
  match fuel with
  | O => []
  | S fuel' =>
      if i <? n then
        let offset := if remainingPairs >? MAX_SCHEDULE_CHUNK_SIZE
                      then MAX_SCHEDULE_CHUNK_SIZE else remainingPairs in
        let scheduleChunk :=
          serializeTransactionPayloads
            (subarray serializedSchedule (i * 16) ((i + offset) * 16)) in
        scheduleChunk
          ++ scheduleLoop fuel' n serializedSchedule (i + MAX_SCHEDULE_CHUNK_SIZE)
               (n - MAX_SCHEDULE_CHUNK_SIZE)
      else []
  end.

Definition schedulePayloads (n : nat) (serializedSchedule : list byte)
  : list (list byte) :=
  scheduleLoop (S n) (Z.of_nat n) serializedSchedule 0 (Z.of_nat n).

Record ScheduleTxn : Type := {
  st_header : TxHeader;
  st_toAddress : list byte;
  st_schedule : list (Z * Z)
}.

Record ScheduleFrames : Type := {
  payloadHeaderAddressScheduleLength : list (list byte);
  payloadsSchedule : list (list byte)
}.

(** [serializeTransferWithSchedule(txn, path)] *)
Definition serializeTransferWithSchedule (path : string) (txn : ScheduleTxn)
  : result ScheduleFrames :=
  let h := st_header txn in
  let serializedType := serializedTypeOf h in
  let toAddressBuffer := st_toAddress txn in
  let n := length (st_schedule txn) in
  let* scheduleLength := encodeInt8 (sizeQ n) in
  let* scheduleBuffer := mapM serializeScheduleItem (st_schedule txn) in
  let serializedSchedule := concat scheduleBuffer in
  let payloadSize := (length serializedType + length scheduleLength
                      + length serializedSchedule + length toAddressBuffer)%nat in
  let* serializedHeader := serializeAccountTransactionHeader h (sizeQ payloadSize) in
  let serializedHeaderAddressScheduleLength :=
    serializedHeader ++ serializedType ++ toAddressBuffer ++ scheduleLength in
  let* p0 := serializeTransactionPayloadsWithDerivationPath path
               serializedHeaderAddressScheduleLength in
  Ok {| payloadHeaderAddressScheduleLength := p0;
        payloadsSchedule := schedulePayloads (length scheduleBuffer) serializedSchedule |}.

Record ScheduleMemoPayload : Type := {
  smp_toAddress : list byte;
  smp_memo : JsField;
  smp_schedule : list (Z * Z)
}.

Record ScheduleMemoTxn : Type := { smt_header : TxHeader; smt_payload : ScheduleMemoPayload }.

Definition setScheduleMemo (txn : ScheduleMemoTxn) (v : JsField) : ScheduleMemoTxn :=
  {| smt_header := smt_header txn;
     smt_payload := {| smp_toAddress := smp_toAddress (smt_payload txn);
                       smp_memo := v;
                       smp_schedule := smp_schedule (smt_payload txn) |} |}.

Record ScheduleMemoFrames : Type := {
  payloadHeaderAddressScheduleLengthAndMemoLength : list (list byte);
  payloadMemo : list (list byte);
  payloadsScheduleM : list (list byte)
}.

(** [serializeTransferWithScheduleAndMemo(txn, path)] *)
Definition serializeTransferWithScheduleAndMemo (path : string) (txn : ScheduleMemoTxn)
  : result ScheduleMemoFrames * ScheduleMemoTxn :=
  match bufferFromField (smp_memo (smt_payload txn)) with
  | Throw e => (Throw e, txn)
  | Ok memoBuffer =>
      match newDataBlob memoBuffer with
      | Throw e => (Throw e, txn)
      | Ok blob =>
      let txn := setScheduleMemo txn blob in
      let h := smt_header txn in
      let pl := smt_payload txn in
      let res :=
        let toAddressBuffer := smp_toAddress pl in
        let n := length (smp_schedule pl) in
        let* scheduleLength := encodeInt8 (sizeQ n) in
        let* scheduleBufferArray := mapM serializeScheduleItem (smp_schedule pl) in
        let serializedSchedule := concat scheduleBufferArray in
        let* memoData := blobData (smp_memo pl) in
        let* serializedMemo := encodeDataBlob memoData in
        let serializedType := serializedTypeOf h in
        let payloadSize := (length serializedType + length scheduleLength
                            + length serializedSchedule + length toAddressBuffer
                            + length serializedMemo)%nat in
        let* serializedHeader := serializeAccountTransactionHeader h (sizeQ payloadSize) in
        let serializedHeaderAddressScheduleLengthAndMemoLength :=
          serializedHeader ++ serializedType ++ toAddressBuffer ++ scheduleLength
            ++ subarray serializedMemo 0 2 in
        let* p0 := serializeTransactionPayloadsWithDerivationPath path
                     serializedHeaderAddressScheduleLengthAndMemoLength in
        Ok {| payloadHeaderAddressScheduleLengthAndMemoLength := p0;
              payloadMemo := serializeTransactionPayloads (subarrayFrom serializedMemo 2);
              payloadsScheduleM :=
                schedulePayloads (length scheduleBufferArray) serializedSchedule |} in
      (res, txn)
      end
  end.

(** *** Register data *)

Record DataTxn : Type := { dt_header : TxHeader; dt_data : JsField }.

Record DataFrames : Type := {
  payloadHeader : list (list byte);
  payloadsData : list (list byte)
}.

(** [serializeRegisterData(txn, path)] *)
Definition serializeRegisterData (path : string) (txn : DataTxn)
  : result DataFrames * DataTxn :=
  match bufferFromField (dt_data txn) with
  | Throw e => (Throw e, txn)
  | Ok dataBuffer =>
      match newDataBlob dataBuffer with
      | Throw e => (Throw e, txn)
      | Ok blob =>
      let txn := {| dt_header := dt_header txn; dt_data := blob |} in
      let h := dt_header txn in
      let res :=
        let* data := blobData (dt_data txn) in
        let* serializedData := encodeDataBlob data in
        let serializedType := serializedTypeOf h in
        let payloadSize := (length serializedType + length serializedData)%nat in
        let* serializedHeader := serializeAccountTransactionHeader h (sizeQ payloadSize) in
        let serializedHeaderAndKind :=
          serializedHeader ++ serializedType ++ subarray serializedData 0 2 in
        let* p0 := serializeTransactionPayloadsWithDerivationPath path serializedHeaderAndKind in
        Ok {| payloadHeader := p0;
              payloadsData := serializeTransactionPayloads (subarrayFrom serializedData 2) |} in
      (res, txn)
      end
  end.

(** *** Transfer to public *)

(** [remainingAmount] and [proofs] are the bytes of [Buffer.from(hex, 'hex')]. *)
Record ToPublicTxn : Type := {
  tp_header : TxHeader;
  tp_remainingAmount : list byte;
  tp_transferAmount : Z;
  tp_index : Z;
  tp_proofs : list byte
}.

Record ToPublicFrames : Type := {
  tpPayloadHeader : list (list byte);
  payloadsAmountAndProofsLength : list (list byte);
  payloadsProofs : list (list byte)
}.

(** [serializeTransferToPublic(txn, path)] *)
Definition serializeTransferToPublic (path : string) (txn : ToPublicTxn)
  : result ToPublicFrames :=
  let h := tp_header txn in
  let remainingAmount := tp_remainingAmount txn in
  let* transferAmount := encodeWord64 (tp_transferAmount txn) in
  let* index := encodeWord64 (tp_index txn) in
  let proofs := tp_proofs txn in
  let* proofsLength := encodeWord16 (sizeQ (length proofs)) in
  let serializedType := serializedTypeOf h in
  let payloadSize := (length remainingAmount + length transferAmount + length index
                      + length proofsLength + length proofs + length serializedType)%nat in
  let* serializedHeader := serializeAccountTransactionHeader h (sizeQ payloadSize) in
  let serializedHeaderAndKind := serializedHeader ++ serializedType in
  let serializedAmountAndProofsLength := remainingAmount ++ transferAmount ++ index ++ proofsLength in
  let* p0 := serializeTransactionPayloadsWithDerivationPath path serializedHeaderAndKind in
  Ok {| tpPayloadHeader := p0;
        payloadsAmountAndProofsLength := serializeTransactionPayloads serializedAmountAndProofsLength;
        payloadsProofs := serializeTransactionPayloads proofs |}.

(** *** Configure baker *)

(** The optional fields of a configure-baker payload; [Some] is a property
    the payload object has ([hasOwnProperty]). *)
Record ConfigureBakerPayload : Type := {
  cb_stake : option Z;
  cb_restakeEarnings : option bool;
  cb_openForDelegation : option Z;
  cb_keys : option (list byte);
  cb_metadataUrl : option string;
  cb_transactionFeeCommission : option Z;
  cb_bakingRewardCommission : option Z;
  cb_finalizationRewardCommission : option Z
}.

(** [txn.payload.hasOwnProperty(f)] *)
Definition hasOwnProperty {A : Type} (o : option A) : bool :=
  match o with Some _ => true | None => false end.

Definition bitOf {A : Type} (o : option A) (i : nat) : Z :=
  match o with Some _ => Z.shiftl 1 (Z.of_nat i) | None => 0 end.

Definition optField {A : Type} (o : option A) (enc : A -> result (list byte))
  : result (list byte) :=
  match o with Some a => enc a | None => Ok [] end.

(** Modelled from the spec: the configure-baker payload bytes produced by the
    SDK's transaction handler ([getAccountTransactionHandler(kind).serialize]),
    which is not part of this repository.  A 16-bit bitmap with bit [i] set
    exactly when the [i]-th optional field is present, then the present
    fields in the fixed canonical order: stake (8 bytes), restake earnings
    (1), open for delegation (1), keys (352), metadata URL (2-byte length and
    the URL), then the transaction-fee, baking-reward and finalization-reward
    commissions (4 bytes each). *)
Definition configureBakerBitmap (p : ConfigureBakerPayload) : Z :=
  bitOf (cb_stake p) 0 + bitOf (cb_restakeEarnings p) 1 + bitOf (cb_openForDelegation p) 2
  + bitOf (cb_keys p) 3 + bitOf (cb_metadataUrl p) 4
  + bitOf (cb_transactionFeeCommission p) 5 + bitOf (cb_bakingRewardCommission p) 6
  + bitOf (cb_finalizationRewardCommission p) 7.

(** Modelled from the spec: see [configureBakerBitmap]. *)
Definition serializeConfigureBakerPayload (p : ConfigureBakerPayload) : result (list byte) :=
  let* bitmap := encodeWord16 (inject_Z (configureBakerBitmap p)) in
  let* stake := optField (cb_stake p) encodeWord64 in
  let* restake := optField (cb_restakeEarnings p) (fun b => Ok [if b then x01 else x00]) in
  let* openFor := optField (cb_openForDelegation p) (fun v => Ok [byteOfZ v]) in
  let* keys := optField (cb_keys p) (fun k => Ok k) in
  let* url := optField (cb_metadataUrl p) (fun u => encodeDataBlob (utf8Encode u)) in
  let* tfc := optField (cb_transactionFeeCommission p) (fun v => encodeWord32 (inject_Z v)) in
  let* brc := optField (cb_bakingRewardCommission p) (fun v => encodeWord32 (inject_Z v)) in
  let* frc := optField (cb_finalizationRewardCommission p) (fun v => encodeWord32 (inject_Z v)) in
  Ok (bitmap ++ stake ++ restake ++ openFor ++ keys ++ url ++ tfc ++ brc ++ frc).

Definition HEADER_LENGTH : Z := 60.
Definition TRANSACTION_KIND_LENGTH : Z := 1.
Definition BITMAP_LENGTH : Z := 2.
Definition STAKING_PAYLOAD_LENGTH : Z := 8.
Definition RESTAKE_EARNINGS_PAYLOAD_LENGTH : Z := 1.
Definition OPEN_FOR_DELEGATION_PAYLOAD_LENGTH : Z := 1.
Definition KEYS_AGGREGATION_LENGTH : Z := 160.
Definition KEYS_ELECTION_AND_SIGNATURE_LENGTH : Z := 192.
Definition KEYS_PAYLOAD_LENGTH : Z := KEYS_ELECTION_AND_SIGNATURE_LENGTH + KEYS_AGGREGATION_LENGTH.
Definition METADATA_URL_LENGTH : Z := 2.
Definition TRANSACTION_FEE_COMMISSION_LENGTH : Z := 4.
Definition BAKING_REWARD_COMMISSION_LENGTH : Z := 4.
Definition FINALIZATION_REWARD_COMMISSION_LENGTH : Z := 4.

Record ConfigureBakerTxn : Type := {
  cbt_header : TxHeader;
  cbt_payload : ConfigureBakerPayload
}.

Record ConfigureBakerFrames : Type := {
  payloadHeaderKindAndBitmap : option (list byte);   (** [payloads[0]], or [undefined] *)
  payloadFirstBatch : list byte;
  payloadAggregationKeys : list byte;
  payloadUrlLength : list byte;
  payloadURL : list byte;
  payloadCommissionFee : list byte
}.

(** One [if (txn.payload.hasOwnProperty(f)) { x = txSerialized.subarray(offset,
    offset + LEN); offset += LEN; }] step: the slice (empty when absent) and
    the new offset. *)
Definition takeField (present : bool) (txSerialized : list byte) (offset len : Z)
  : list byte * Z :=
  if present then (subarray txSerialized offset (offset + len), offset + len)
  else ([], offset).

(** The metadata-URL step: the 2-byte length, then [readUInt16BE(0)] bytes of
    URL; [readUInt16BE] throws on a slice shorter than 2 bytes. *)
Definition takeUrl (present : bool) (txSerialized : list byte) (offset : Z)
  : result (list byte * list byte * Z) :=
  if present then
    let metadataUrl := subarray txSerialized offset (offset + METADATA_URL_LENGTH) in
    let offset := offset + METADATA_URL_LENGTH in
    let* n := readUIntBE 2 metadataUrl in
    Ok (metadataUrl, subarray txSerialized offset (offset + n), offset + n)
  else Ok ([], [], offset).

(** [serializeConfigureBaker(txn, path)] *)
Definition serializeConfigureBaker (path : string) (txn : ConfigureBakerTxn)
  : result ConfigureBakerFrames :=
  let p := cbt_payload txn in
  let* payloadBytes := serializeConfigureBakerPayload p in
  let* txSerialized := serializeAccountTransaction (cbt_header txn) payloadBytes in
  let headerKindAndBitmap :=
    subarray txSerialized 0 (HEADER_LENGTH + TRANSACTION_KIND_LENGTH + BITMAP_LENGTH) in
  let offset := HEADER_LENGTH + TRANSACTION_KIND_LENGTH + BITMAP_LENGTH in
  let s1 := takeField (hasOwnProperty (cb_stake p)) txSerialized offset STAKING_PAYLOAD_LENGTH in
  let s2 := takeField (hasOwnProperty (cb_restakeEarnings p)) txSerialized (snd s1)
              RESTAKE_EARNINGS_PAYLOAD_LENGTH in
  let s3 := takeField (hasOwnProperty (cb_openForDelegation p)) txSerialized (snd s2)
              OPEN_FOR_DELEGATION_PAYLOAD_LENGTH in
  let s4 := takeField (hasOwnProperty (cb_keys p)) txSerialized (snd s3) KEYS_PAYLOAD_LENGTH in
  let* s5 := takeUrl (hasOwnProperty (cb_metadataUrl p)) txSerialized (snd s4) in
  let s6 := takeField (hasOwnProperty (cb_transactionFeeCommission p)) txSerialized (snd s5)
              TRANSACTION_FEE_COMMISSION_LENGTH in
  let s7 := takeField (hasOwnProperty (cb_bakingRewardCommission p)) txSerialized (snd s6)
              BAKING_REWARD_COMMISSION_LENGTH in
  let s8 := takeField (hasOwnProperty (cb_finalizationRewardCommission p)) txSerialized (snd s7)
              FINALIZATION_REWARD_COMMISSION_LENGTH in
  let stake := fst s1 in
  let restakeEarnings := fst s2 in
  let openForDelegation := fst s3 in
  let keys := fst s4 in
  let metadataUrl := fst (fst s5) in
  let url := snd (fst s5) in
  let* payloadHeaderKindAndBitmap :=
    serializeTransactionPayloadsWithDerivationPath path headerKindAndBitmap in
  Ok {| payloadHeaderKindAndBitmap := nth_error payloadHeaderKindAndBitmap 0;
        payloadFirstBatch := stake ++ restakeEarnings ++ openForDelegation
                               ++ subarray keys 0 KEYS_ELECTION_AND_SIGNATURE_LENGTH;
        payloadAggregationKeys := subarrayFrom keys KEYS_ELECTION_AND_SIGNATURE_LENGTH;
        payloadUrlLength := metadataUrl;
        payloadURL := url;
        payloadCommissionFee := fst s6 ++ fst s7 ++ fst s8 |}.

(** A configure-baker payload with only [stake] and [keys]. *)
Definition stakeAndKeys (stake : Z) (keys : list byte) : ConfigureBakerPayload :=
  {| cb_stake := Some stake; cb_restakeEarnings := None; cb_openForDelegation := None;
     cb_keys := Some keys; cb_metadataUrl := None; cb_transactionFeeCommission := None;
     cb_bakingRewardCommission := None; cb_finalizationRewardCommission := None |}.

(** ** Dispatcher ([Concordium.ts]) *)

Definition NONE : Z := 0.
Definition P1_FIRST_BATCH : Z := 1.
Definition P1_AGGREGATION_KEY : Z := 2.
Definition P1_URL_LENGTH : Z := 3.
Definition P1_URL : Z := 4.
Definition P1_COMMISSION_FEE : Z := 5.
Definition P1_FIRST_CHUNK : Z := 0.
Definition P1_INITIAL_WITH_MEMO : Z := 1.
Definition P1_INITIAL_WITH_MEMO_SCHEDULE : Z := 2.
Definition P1_MEMO_SCHEDULE : Z := 3.
Definition P1_REMAINING_AMOUNT : Z := 1.
Definition P1_DATA : Z := 1.
Definition P1_PROOF : Z := 2.
Definition P1_MEMO : Z := 2.
Definition P1_AMOUNT : Z := 3.
Definition P2_MORE : Z := 128.
Definition P2_LAST : Z := 0.
Definition P1_INITIAL_PACKET : Z := 0.
Definition P1_SCHEDULED_TRANSFER_PAIRS : Z := 1.
Definition P2_CREDENTIAL_INITIAL : Z := 0.
Definition P2_CREDENTIAL_CREDENTIAL_INDEX : Z := 1.
Definition P2_CREDENTIAL_CREDENTIAL : Z := 2.
Definition P2_CREDENTIAL_ID_COUNT : Z := 3.
Definition P2_CREDENTIAL_ID : Z := 4.
Definition P2_THRESHOLD : Z := 5.
Definition P1_VERIFICATION_KEY_LENGTH : Z := 10.
Definition P1_VERIFICATION_KEY : Z := 1.
Definition P1_SIGNATURE_THRESHOLD : Z := 2.
Definition P1_AR_IDENTITY : Z := 3.
Definition P1_CREDENTIAL_DATES : Z := 4.
Definition P1_ATTRIBUTE_TAG : Z := 5.
Definition P1_ATTRIBUTE_VALUE : Z := 6.
Definition P1_LENGTH_OF_PROOFS : Z := 7.
Definition P1_PROOFS : Z := 8.

Definition INS_SIGN_TRANSFER : Z := 2.
Definition INS_SIGN_TRANSFER_SCHEDULE : Z := 3.
Definition INS_SIGN_TRANSFER_TO_PUBLIC : Z := 18.
Definition INS_SIGN_CONFIGURE_DELEGATION : Z := 23.
Definition INS_SIGN_CONFIGURE_BAKER : Z := 24.
Definition INS_SIGN_UPDATE_CREDENTIALS : Z := 49.
Definition INS_SIGN_TRANSFER_MEMO : Z := 50.
Definition INS_SIGN_TRANSFER_SCHEDULE_AND_MEMO : Z := 52.
Definition INS_SIGN_REGISTER_DATA : Z := 53.
Definition INS_SIGN_DEPLOY_MODULE : Z := 6.
Definition INS_SIGN_INIT_CONTRACT : Z := 6.
Definition INS_SIGN_UPDATE_CONTRACT : Z := 6.

(** One [sendToDevice(instruction, p1, p2, payload)] call; [None] is an
    [undefined] payload (such as [frames[0]] of an empty frame list). *)
Record Apdu : Type := {
  apduIns : Z;
  apduP1 : Z;
  apduP2 : Z;
  apduData : option (list byte)
}.

Definition stage (ins p1 p2 : Z) (data : option (list byte)) : Apdu :=
  {| apduIns := ins; apduP1 := p1; apduP2 := p2; apduData := data |}.

(** [this.transport.send(LEDGER_CLA, ins, p1, p2, payload, [StatusCodes.OK])]:
    any device behind any transport, given the commands already sent; it
    yields the raw reply (data and status word) or rejects. *)
Definition Transport : Type := list Apdu -> Apdu -> result (list byte).

(** [sendToDevice]: [throwOnFailure] reads the status word with
    [readUInt16BE(reply.length - 2)], which throws on a reply shorter than two
    bytes, and the status word is then cut off. *)
Definition sendToDevice (transport : Transport) (hist : list Apdu) (a : Apdu)
  : result (list byte) :=
  let* reply := transport hist a in
  if (length reply <? 2)%nat then Throw BufferRangeError
  else Ok (subarray reply 0 (Z.of_nat (length reply) - 2)).

(** The [response = await this.sendToDevice(...)] statements of a sign
    method, in order; a [Throw] entry is an exception raised while building
    that call's arguments.  The result is the last [response], [None] while
    it is still [undefined]. *)
Fixpoint runStages (transport : Transport) (hist : list Apdu)
  (stages : list (result Apdu)) (response : option (list byte))
  : result (option (list byte)) :=
  match stages with
  | [] => Ok response
  | Throw e :: _ => Throw e
  | Ok a :: rest =>
      let* r := sendToDevice transport hist a in
      runStages transport (hist ++ [a]) rest (Some r)
  end.

(** [if (response.length === 1) throw new Error("User has declined.");]
    then the signature [response.toString("hex")]; [undefined.length]
    throws a [TypeError]. *)
Definition declineCheck (response : option (list byte)) : result (list byte) :=
  match response with
  | None => Throw TypeErr
  | Some r => if (length r =? 1)%nat then Throw UserDeclined else Ok r
  end.

Fixpoint mapiFrom {A B : Type} (f : nat -> A -> B) (i : nat) (l : list A) : list B :=
  match l with
  | [] => []
  | x :: rest => f i x :: mapiFrom f (S i) rest
  end.

(** The [for (i = 0; i < payloads.length; i++)] loop of the streamed kinds:
    stage tag [P1_FIRST_CHUNK + i], [P2_LAST] on the last frame. *)
Definition streamedStages (ins : Z) (payloads : list (list byte)) : list (result Apdu) :=
  mapiFrom (fun i p =>
              Ok (stage ins (P1_FIRST_CHUNK + Z.of_nat i)
                    (if (i =? length payloads - 1)%nat then P2_LAST else P2_MORE) (Some p)))
           0 payloads.

(** The output of [serializeUpdateCredentials]. *)
Record UpdateCredentialsFrames : Type := {
  payloadHeaderKindAndIndexLength : list (list byte);
  credentialIndex : list (list byte);
  numberOfVerificationKeys : list (list byte);
  keyIndexAndSchemeAndVerificationKey : list (list byte);
  thresholdAndRegIdAndIPIdentity : list (list byte);
  encIdCredPubShareAndKey : list (list byte);
  validToAndCreatedAtAndAttributesLength : list (list byte);
  attributesLength : list (list byte);
  tag : list (list (list byte));
  valueLength : list (list (list byte));
  value : list (list (list byte));
  proofLength : list (list byte);
  proofs : list (list byte);
  credentialIdCount : list byte;
  credentialIds : list (list byte);
  threshold : list byte
}.

(** [a[i][j]]: [undefined[j]] throws. *)
Definition index2 (a : list (list (list byte))) (i j : nat) : result (option (list byte)) :=
  match nth_error a i with
  | None => Throw TypeErr
  | Some row => Ok (nth_error row j)
  end.

Definition credStage (p1 : Z) (data : option (list byte)) : result Apdu :=
  Ok (stage INS_SIGN_UPDATE_CREDENTIALS p1 P2_CREDENTIAL_CREDENTIAL data).

(** The two calls for attribute [j] of credential [i]:
    [Buffer.concat([tag[i][j], valueLength[i][j]])] throws on an [undefined]
    element. *)
Definition attributeStages (f : UpdateCredentialsFrames) (i j : nat) : list (result Apdu) :=
  [ (let* t := index2 (tag f) i j in
     let* vl := index2 (valueLength f) i j in
     match t, vl with
     | Some t, Some vl => credStage P1_ATTRIBUTE_TAG (Some (t ++ vl))
     | _, _ => Throw TypeErr
     end);
    (let* v := index2 (value f) i j in credStage P1_ATTRIBUTE_VALUE v) ].

(** The body of the outer loop for credential [i] with [nAttributes] revealed
    attributes; [serializeTransactionPayloads(proofs[i])] throws when
    [proofs[i]] is [undefined]. *)
Definition credentialStages (f : UpdateCredentialsFrames) (i nAttributes : nat)
  : list (result Apdu) :=
  [ Ok (stage INS_SIGN_UPDATE_CREDENTIALS NONE P2_CREDENTIAL_CREDENTIAL_INDEX
          (nth_error (credentialIndex f) i));
    credStage P1_VERIFICATION_KEY_LENGTH (nth_error (numberOfVerificationKeys f) i);
    credStage P1_VERIFICATION_KEY (nth_error (keyIndexAndSchemeAndVerificationKey f) i);
    credStage P1_SIGNATURE_THRESHOLD (nth_error (thresholdAndRegIdAndIPIdentity f) i);
    credStage P1_AR_IDENTITY (nth_error (encIdCredPubShareAndKey f) i);
    credStage P1_CREDENTIAL_DATES (nth_error (validToAndCreatedAtAndAttributesLength f) i) ]
  ++ flat_map (attributeStages f i) (seq 0 nAttributes)
  ++ [credStage P1_LENGTH_OF_PROOFS (nth_error (proofLength f) i)]
  ++ match nth_error (proofs f) i with
     | None => [Throw TypeErr]
     | Some pr => map (fun p => credStage P1_PROOFS (Some p)) (serializeTransactionPayloads pr)
     end.

(** [signUpdateCredentials]: [attributeCounts] has one entry per element of
    [txn.payload.newCredentials], the number of keys of its
    [cdi.policy.revealedAttributes]; [removeCount] is
    [txn.payload.removeCredentialIds.length]. *)
Definition updateCredentialsStages (f : UpdateCredentialsFrames) (attributeCounts : list nat)
  (removeCount : nat) : list (result Apdu) :=
  [Ok (stage INS_SIGN_UPDATE_CREDENTIALS NONE P2_CREDENTIAL_INITIAL
         (nth_error (payloadHeaderKindAndIndexLength f) 0))]
  ++ flat_map (fun i => credentialStages f i (nth i attributeCounts 0%nat))
              (seq 0 (length attributeCounts))
  ++ [Ok (stage INS_SIGN_UPDATE_CREDENTIALS NONE P2_CREDENTIAL_ID_COUNT
            (Some (credentialIdCount f)))]
  ++ map (fun i => Ok (stage INS_SIGN_UPDATE_CREDENTIALS NONE P2_CREDENTIAL_ID
                         (nth_error (credentialIds f) i)))
         (seq 0 removeCount)
  ++ [Ok (stage INS_SIGN_UPDATE_CREDENTIALS NONE P2_THRESHOLD (Some (threshold f)))].

(** The signing operations of [Concordium].  The streamed kinds take the
    payload bytes of the SDK's transaction handler; [signUpdateCredentials]
    takes whatever [serializeUpdateCredentials] returned or threw. *)
Inductive SignOp : Type :=
  | SignTransfer (h : TxHeader) (payload : list byte) (path : string)
  | SignTransferWithMemo (path : string) (txn : MemoTxn)
  | SignTransferWithSchedule (path : string) (txn : ScheduleTxn)
  | SignTransferWithScheduleAndMemo (path : string) (txn : ScheduleMemoTxn)
  | SignConfigureDelegation (h : TxHeader) (payload : list byte) (path : string)
  | SignConfigureBaker (path : string) (txn : ConfigureBakerTxn)
  | SignRegisterData (path : string) (txn : DataTxn)
  | SignTransferToPublic (path : string) (txn : ToPublicTxn)
  | SignDeployModule (h : TxHeader) (payload : list byte) (path : string)
  | SignInitContract (h : TxHeader) (payload : list byte) (path : string)
  | SignUpdateContract (h : TxHeader) (payload : list byte) (path : string)
  | SignUpdateCredentials (serialized : result UpdateCredentialsFrames)
      (attributeCounts : list nat) (removeCount : nat).

(** The serializer call at the top of each sign method, then its
    [sendToDevice] calls in order. *)
Definition signStages (op : SignOp) : result (list (result Apdu)) :=
  match op with
  | SignTransfer h payload path =>
      let* payloads := serializeTransaction h payload path in
      Ok (streamedStages INS_SIGN_TRANSFER payloads)
  | SignTransferWithMemo path txn =>
      let* f := fst (serializeSimpleTransferWithMemo path txn) in
      Ok [Ok (stage INS_SIGN_TRANSFER_MEMO P1_INITIAL_WITH_MEMO NONE
                (nth_error (payloadHeaderAddressMemoLength f) 0));
          Ok (stage INS_SIGN_TRANSFER_MEMO P1_MEMO NONE (nth_error (payloadsMemo f) 0));
          Ok (stage INS_SIGN_TRANSFER_MEMO P1_AMOUNT NONE (nth_error (payloadsAmount f) 0))]
  | SignTransferWithSchedule path txn =>
      let* f := serializeTransferWithSchedule path txn in
      Ok (Ok (stage INS_SIGN_TRANSFER_SCHEDULE P1_INITIAL_PACKET NONE
                (nth_error (payloadHeaderAddressScheduleLength f) 0))
          :: map (fun p => Ok (stage INS_SIGN_TRANSFER_SCHEDULE P1_SCHEDULED_TRANSFER_PAIRS
                                 NONE (Some p)))
                 (payloadsSchedule f))
  | SignTransferWithScheduleAndMemo path txn =>
      let* f := fst (serializeTransferWithScheduleAndMemo path txn) in
      Ok (Ok (stage INS_SIGN_TRANSFER_SCHEDULE_AND_MEMO P1_INITIAL_WITH_MEMO_SCHEDULE NONE
                (nth_error (payloadHeaderAddressScheduleLengthAndMemoLength f) 0))
          :: Ok (stage INS_SIGN_TRANSFER_SCHEDULE_AND_MEMO P1_MEMO_SCHEDULE NONE
                   (nth_error (payloadMemo f) 0))
          :: map (fun p => Ok (stage INS_SIGN_TRANSFER_SCHEDULE_AND_MEMO
                                 P1_SCHEDULED_TRANSFER_PAIRS NONE (Some p)))
                 (payloadsScheduleM f))
  | SignConfigureDelegation h payload path =>
      let* payloads := serializeTransaction h payload path in
      Ok (streamedStages INS_SIGN_CONFIGURE_DELEGATION payloads)
  | SignConfigureBaker path txn =>
      let* f := serializeConfigureBaker path txn in
      Ok [Ok (stage INS_SIGN_CONFIGURE_BAKER P1_INITIAL_PACKET NONE
                (payloadHeaderKindAndBitmap f));
          Ok (stage INS_SIGN_CONFIGURE_BAKER P1_FIRST_BATCH NONE (Some (payloadFirstBatch f)));
          Ok (stage INS_SIGN_CONFIGURE_BAKER P1_AGGREGATION_KEY NONE
                (Some (payloadAggregationKeys f)));
          Ok (stage INS_SIGN_CONFIGURE_BAKER P1_URL_LENGTH NONE (Some (payloadUrlLength f)));
          Ok (stage INS_SIGN_CONFIGURE_BAKER P1_URL NONE (Some (payloadURL f)));
          Ok (stage INS_SIGN_CONFIGURE_BAKER P1_COMMISSION_FEE NONE
                (Some (payloadCommissionFee f)))]
  | SignRegisterData path txn =>
      let* f := fst (serializeRegisterData path txn) in
      Ok (Ok (stage INS_SIGN_REGISTER_DATA P1_INITIAL_PACKET NONE
                (nth_error (payloadHeader f) 0))
          :: map (fun p => Ok (stage INS_SIGN_REGISTER_DATA P1_DATA NONE (Some p)))
                 (payloadsData f))
  | SignTransferToPublic path txn =>
      let* f := serializeTransferToPublic path txn in
      Ok (Ok (stage INS_SIGN_TRANSFER_TO_PUBLIC P1_INITIAL_PACKET NONE
                (nth_error (tpPayloadHeader f) 0))
          :: Ok (stage INS_SIGN_TRANSFER_TO_PUBLIC P1_REMAINING_AMOUNT NONE
                   (nth_error (payloadsAmountAndProofsLength f) 0))
          :: map (fun p => Ok (stage INS_SIGN_TRANSFER_TO_PUBLIC P1_PROOF NONE (Some p)))
                 (payloadsProofs f))
  | SignDeployModule h payload path =>
      let* payloads := serializeTransaction h payload path in
      Ok (streamedStages INS_SIGN_DEPLOY_MODULE payloads)
  | SignInitContract h payload path =>
      let* payloads := serializeTransaction h payload path in
      Ok (streamedStages INS_SIGN_INIT_CONTRACT payloads)
  | SignUpdateContract h payload path =>
      let* payloads := serializeTransaction h payload path in
      Ok (streamedStages INS_SIGN_UPDATE_CONTRACT payloads)
  | SignUpdateCredentials serialized attributeCounts removeCount =>
      let* f := serialized in
      Ok (updateCredentialsStages f attributeCounts removeCount)
  end.

(** The [response] a sign method holds after its last [sendToDevice]. *)
Definition terminalResponse (transport : Transport) (op : SignOp)
  : result (option (list byte)) :=
  let* stages := signStages op in
  runStages transport [] stages None.

(** A sign method: its stages, then the decline check on the last reply. *)
Definition sign (transport : Transport) (op : SignOp) : result (list byte) :=
  let* response := terminalResponse transport op in
  declineCheck response.

(** A device that answers every command with [b] and the status [0x9000]. *)
Definition replyWith (b : list byte) : Transport :=
  fun _ _ => Ok (b ++ [x90; x00]).

(** The header layout [serializeAccountTransactionHeader] writes when it
    succeeds: sender, nonce, energy, the 32-bit payload size, expiry. *)
Definition headerLayout (h : TxHeader) (payloadSize : Z) : list byte :=
  sender h ++ beBytes 8 (nonce h) ++ beBytes 8 (energyAmount h)
    ++ beBytes 4 payloadSize ++ beBytes 8 (expiry h).

(** The bytes a sequence of path-prefixed frames carries: their
    concatenation with the path prefix taken off the first frame. *)
Definition unframe (path : string) (frames : list (list byte)) : list byte :=
  match derivationPathBuffer (splitPath path) with
  | Ok pathBuffer => concat (removePathPrefix pathBuffer frames)
  | Throw _ => concat frames
  end.

(** [carried] is [header ‖ kind ‖ payload] for some [payload], with a header
    whose 32-bit payload-size field is [length payload + 1]. *)
Definition sizedTransaction (h : TxHeader) (carried : list byte) : Prop :=
  exists hdr payload,
    carried = hdr ++ serializedTypeOf h ++ payload /\
    hdr = headerLayout h (Z.of_nat (length payload + 1)).

(** ** Concrete inputs used by the examples below *)

Definition examplePath : string := "44'/919'/0'/0/0".

Definition exampleHeader (kind : Z) : TxHeader :=
  {| sender := repeat x01 32; nonce := 1234; energyAmount := 1234;
     expiry := 1700000000; transactionKind := kind |}.

(** A transfer with schedule (kind 19) of [n] equal pairs. *)
Definition exampleScheduleTxn (n : nat) : ScheduleTxn :=
  {| st_header := exampleHeader 19; st_toAddress := repeat x02 32;
     st_schedule := repeat (1700000000, 1000) n |}.

Definition exampleScheduleMemoTxn (n : nat) : ScheduleMemoTxn :=
  {| smt_header := exampleHeader 24;
     smt_payload := {| smp_toAddress := repeat x02 32; smp_memo := JsString "hello";
                       smp_schedule := repeat (1700000000, 1000) n |} |}.

Definition examplePayload : list byte := repeat x05 40.

Definition exampleMemoTxn : MemoTxn :=
  {| mt_header := exampleHeader 22;
     mt_payload := {| mp_toAddress := repeat x02 32; mp_memo := JsString "hello";
                      mp_amount := 1000 |} |}.

Definition exampleDataTxn : DataTxn :=
  {| dt_header := exampleHeader 21; dt_data := JsString "data" |}.

Definition exampleToPublicTxn : ToPublicTxn :=
  {| tp_header := exampleHeader 17; tp_remainingAmount := repeat x03 192;
     tp_transferAmount := 1000; tp_index := 5; tp_proofs := repeat x04 300 |}.

(** A transfer with an empty memo. *)
Definition exampleEmptyMemoTxn : MemoTxn :=
  {| mt_header := exampleHeader 22;
     mt_payload := {| mp_toAddress := repeat x02 32; mp_memo := JsString EmptyString;
                      mp_amount := 1000 |} |}.

(** A memo (and register-data string) of 257 ASCII characters: one byte
    more than a [DataBlob] holds. *)
Definition longMemo : string := string_of_list_ascii (repeat "a"%char 257).

Definition exampleLongMemoTxn : MemoTxn :=
  {| mt_header := exampleHeader 22;
     mt_payload := {| mp_toAddress := repeat x02 32; mp_memo := JsString longMemo;
                      mp_amount := 1000 |} |}.

Definition exampleLongDataTxn : DataTxn :=
  {| dt_header := exampleHeader 21; dt_data := JsString longMemo |}.

(** ** Further code of [Concordium.ts] and [serialization.ts] *)

(** [buf.readInt8(0)] / [buf.readInt32BE(0)] on a buffer of the encoder's
    width: the big-endian value read as two's complement. *)
Definition readIntBE (l : list byte) : Z :=
  let u := readBE l in
  let w := 8 * Z.of_nat (length l) in
  if 2 ^ (w - 1) <=? u then u - 2 ^ w else u.

(** The bytes a staged command carries: an [undefined] payload is sent as
    the transport's default, an empty buffer. *)
Definition stageData (s : result Apdu) : list byte :=
  match s with
  | Ok a => match apduData a with Some d => d | None => [] end
  | Throw _ => []
  end.

(** A staged command that is sent: built without an exception, with the
    instruction [ins] and a defined payload. *)
Definition sentWith (ins : Z) (s : result Apdu) : Prop :=
  exists a, s = Ok a /\ apduIns a = ins /\ apduData a <> None.

(** *** Address verification and public keys *)

Definition INS_VERIFY_ADDRESS : Z := 0.
Definition INS_GET_PUBLIC_KEY : Z := 1.
Definition P1_LEGACY_VERIFY_ADDRESS : Z := 0.
Definition P1_VERIFY_ADDRESS : Z := 1.
Definition P1_NON_CONFIRM : Z := 0.
Definition P1_CONFIRM : Z := 1.
Definition P2_SIGNED_KEY : Z := 1.

(** The [{ status }] of the verification methods: the [try] block's outcome,
    every exception being caught. *)
Definition statusOf {A : Type} (r : result A) : string :=
  match r with
  | Ok _ => "success"
  | Throw _ => "failed"
  end.

(** [verifyAddressLegacy(id, cred)] *)
Definition verifyAddressLegacy (transport : Transport) (id cred : Q) : string :=
  statusOf (
    let* idEncoded := encodeInt32 id in
    let* credEncoded := encodeInt32 cred in
    sendToDevice transport []
      (stage INS_VERIFY_ADDRESS P1_LEGACY_VERIFY_ADDRESS NONE
         (Some (idEncoded ++ credEncoded)))).

(** [verifyAddress(idp, id, cred)] *)
Definition verifyAddress (transport : Transport) (idp id cred : Q) : string :=
  statusOf (
    let* idEncoded := encodeInt32 id in
    let* idpEncoded := encodeInt32 idp in
    let* credEncoded := encodeInt32 cred in
    sendToDevice transport []
      (stage INS_VERIFY_ADDRESS P1_VERIFY_ADDRESS NONE
         (Some (idpEncoded ++ idEncoded ++ credEncoded)))).

(** The bytes of the hex strings [getPublicKey] returns; [signedPublicKey]
    is [None] when the property is absent. *)
Record PublicKeyResult : Type := {
  publicKey : list byte;
  signedPublicKey : option (list byte)
}.

(** [getPublicKey(path, display, signedKey)]: [pathNums] is
    [BIPPath.fromString(path).toPathArray()], computed by the [bip32-path]
    package, and an absent flag is [false].  [publicKeyBuffer[0]] is
    [undefined] on an empty reply, and [1 + undefined] is [NaN], which
    [subarray] reads as [0]. *)
Definition getPublicKey (transport : Transport) (pathNums : list Z)
  (display signedKey : bool) : result PublicKeyResult :=
  let* pathBuffer := serializePath pathNums in
  let* publicKeyBuffer :=
    sendToDevice transport []
      (stage INS_GET_PUBLIC_KEY (if display then P1_NON_CONFIRM else P1_CONFIRM)
         (if signedKey then P2_SIGNED_KEY else NONE) (Some pathBuffer)) in
  let keyEnd := match publicKeyBuffer with
                | publicKeyLength :: _ => 1 + ZofByte publicKeyLength
                | [] => 0
                end in
  if signedKey then
    Ok {| publicKey := subarray publicKeyBuffer 1 keyEnd;
          signedPublicKey := Some (subarrayFrom publicKeyBuffer keyEnd) |}
  else
    Ok {| publicKey := subarray publicKeyBuffer 1 keyEnd; signedPublicKey := None |}.

(** *** Update credentials *)

Definition INDEX_LENGTH : Z := 1.
Definition ONE_OCTET_LENGTH : Z := 1.
Definition KEY_LENGTH : Z := 32.
Definition REG_ID_LENGTH : Z := 48.
Definition IP_IDENTITY_LENGTH : Z := 4.
Definition AR_DATA_LENGTH : Z := 2.
Definition ID_CRED_PUB_SHARE_LENGTH : Z := 96.
Definition VALID_TO_LENGTH : Z := 3.
Definition CREATED_AT_LENGTH : Z := 3.
Definition ATTRIBUTES_LENGTH : Z := 2.
Definition TAG_LENGTH : Z := 1.
Definition VALUE_LENGTH : Z := 1.
Definition PROOF_LENGTH_LENGTH : Z := 4.
Definition CREDENTIAL_ID_LENGTH : Z := 48.

(** The inner loop over the attributes of one credential: [tag[i]],
    [valueLength[i]], [value[i]] and the new offset.  The value slice is
    [valueLength[i][j].readUInt8(0)] bytes long, which throws on an empty
    slice. *)
Fixpoint attributesLoop (txSerialized : list byte) (count : nat) (offset : Z)
  : result (list (list byte) * list (list byte) * list (list byte) * Z) :=
  match count with
  | O => Ok ([], [], [], offset)
  | S count' =>
      let t := subarray txSerialized offset (offset + TAG_LENGTH) in
      let offset := offset + TAG_LENGTH in
      let vl := subarray txSerialized offset (offset + VALUE_LENGTH) in
      let offset := offset + VALUE_LENGTH in
      let* n := readUIntBE 1 vl in
      let v := subarray txSerialized offset (offset + n) in
      let offset := offset + n in
      let* rest := attributesLoop txSerialized count' offset in
      let '(ts, vls, vs, offset) := rest in
      Ok (t :: ts, vl :: vls, v :: vs, offset)
  end.

(** The slices of one credential. *)
Record CredentialSlices : Type := {
  cs_credentialIndex : list byte;
  cs_numberOfVerificationKeys : list byte;
  cs_keyIndexAndSchemeAndVerificationKey : list byte;
  cs_thresholdAndRegIdAndIPIdentity : list byte;
  cs_encIdCredPubShareAndKey : list byte;
  cs_validToAndCreatedAtAndAttributesLength : list byte;
  cs_attributesLength : list byte;
  cs_tag : list (list byte);
  cs_valueLength : list (list byte);
  cs_value : list (list byte);
  cs_proofLength : list byte;
  cs_proofs : list byte
}.

(** One round of the outer loop of [serializeUpdateCredentials]; the
    attribute count [attributesLength[i].readUInt16BE(0)] and the proof
    length [proofLength[i].readUInt32BE(0)] throw on short slices. *)
Definition readCredential (txSerialized : list byte) (offset : Z)
  : result (CredentialSlices * Z) :=
  let credentialIndex := subarray txSerialized offset (offset + INDEX_LENGTH) in
  let offset := offset + INDEX_LENGTH in
  let numberOfVerificationKeys := subarray txSerialized offset (offset + INDEX_LENGTH) in
  let offset := offset + INDEX_LENGTH in
  let keyIndexAndSchemeAndVerificationKey :=
    subarray txSerialized offset (offset + 2 * ONE_OCTET_LENGTH + KEY_LENGTH) in
  let offset := offset + 2 * ONE_OCTET_LENGTH + KEY_LENGTH in
  let thresholdAndRegIdAndIPIdentity :=
    subarray txSerialized offset
      (offset + 2 * ONE_OCTET_LENGTH + REG_ID_LENGTH + IP_IDENTITY_LENGTH + AR_DATA_LENGTH) in
  let offset :=
    offset + 2 * ONE_OCTET_LENGTH + REG_ID_LENGTH + IP_IDENTITY_LENGTH + AR_DATA_LENGTH in
  let encIdCredPubShareAndKey :=
    subarray txSerialized offset (offset + 4 * ONE_OCTET_LENGTH + ID_CRED_PUB_SHARE_LENGTH) in
  let offset := offset + 4 * ONE_OCTET_LENGTH + ID_CRED_PUB_SHARE_LENGTH in
  let validToAndCreatedAtAndAttributesLength :=
    subarray txSerialized offset
      (offset + ATTRIBUTES_LENGTH + VALID_TO_LENGTH + CREATED_AT_LENGTH) in
  let offset := offset + ATTRIBUTES_LENGTH + VALID_TO_LENGTH + CREATED_AT_LENGTH in
  let attributesLength :=
    subarrayFrom validToAndCreatedAtAndAttributesLength (- ATTRIBUTES_LENGTH) in
  let* count := readUIntBE 2 attributesLength in
  let* attrs := attributesLoop txSerialized (Z.to_nat count) offset in
  let '(tags, valueLengths, values, offset) := attrs in
  let proofLength := subarray txSerialized offset (offset + PROOF_LENGTH_LENGTH) in
  let offset := offset + PROOF_LENGTH_LENGTH in
  let* n := readUIntBE 4 proofLength in
  let proofs := subarray txSerialized offset (offset + n) in
  let offset := offset + n in
  Ok ({| cs_credentialIndex := credentialIndex;
         cs_numberOfVerificationKeys := numberOfVerificationKeys;
         cs_keyIndexAndSchemeAndVerificationKey := keyIndexAndSchemeAndVerificationKey;
         cs_thresholdAndRegIdAndIPIdentity := thresholdAndRegIdAndIPIdentity;
         cs_encIdCredPubShareAndKey := encIdCredPubShareAndKey;
         cs_validToAndCreatedAtAndAttributesLength := validToAndCreatedAtAndAttributesLength;
         cs_attributesLength := attributesLength;
         cs_tag := tags; cs_valueLength := valueLengths; cs_value := values;
         cs_proofLength := proofLength; cs_proofs := proofs |}, offset).

(** The outer loop, [for (i = 0; i < txn.payload.newCredentials.length; i++)]. *)
Fixpoint credentialsLoop (txSerialized : list byte) (count : nat) (offset : Z)
  : result (list CredentialSlices * Z) :=
  match count with
  | O => Ok ([], offset)
  | S count' =>
      let* r := readCredential txSerialized offset in
      let* rest := credentialsLoop txSerialized count' (snd r) in
      Ok (fst r :: fst rest, snd rest)
  end.

(** The [credentialIds] loop: [count] slices of [CREDENTIAL_ID_LENGTH]
    bytes. *)
Fixpoint credentialIdsLoop (txSerialized : list byte) (count : nat) (offset : Z)
  : list (list byte) * Z :=
  match count with
  | O => ([], offset)
  | S count' =>
      let id := subarray txSerialized offset (offset + CREDENTIAL_ID_LENGTH) in
      let rest := credentialIdsLoop txSerialized count' (offset + CREDENTIAL_ID_LENGTH) in
      (id :: fst rest, snd rest)
  end.

(** [serializeUpdateCredentials(txn, path)]: [serializedPayload] is the SDK
    handler's payload bytes and [newCredentialsCount] is
    [txn.payload.newCredentials.length].  [tag], [valueLength] and [value]
    start as [[[]]] and row [i] is replaced in round [i]. *)
Definition serializeUpdateCredentials (path : string) (h : TxHeader)
  (serializedPayload : list byte) (newCredentialsCount : nat)
  : result UpdateCredentialsFrames :=
  let* txSerialized := serializeAccountTransaction h serializedPayload in
  let headerKindAndIndexLength :=
    subarray txSerialized 0 (HEADER_LENGTH + TRANSACTION_KIND_LENGTH + INDEX_LENGTH) in
  let* payloadHeaderKindAndIndexLength :=
    serializeTransactionPayloadsWithDerivationPath path headerKindAndIndexLength in
  let offset := HEADER_LENGTH + TRANSACTION_KIND_LENGTH + INDEX_LENGTH in
  let* creds := credentialsLoop txSerialized newCredentialsCount offset in
  let '(cs, offset) := creds in
  let rows := fun (f : CredentialSlices -> list (list byte)) =>
                match cs with [] => [[]] | _ => map f cs end in
  let credentialIdCount := subarray txSerialized offset (offset + ONE_OCTET_LENGTH) in
  let offset := offset + ONE_OCTET_LENGTH in
  let* idCount := readUIntBE 1 credentialIdCount in
  let ids := credentialIdsLoop txSerialized (Z.to_nat idCount) offset in
  let offset := snd ids in
  let threshold := subarray txSerialized offset (offset + ONE_OCTET_LENGTH) in
  Ok {| payloadHeaderKindAndIndexLength := payloadHeaderKindAndIndexLength;
        credentialIndex := map cs_credentialIndex cs;
        numberOfVerificationKeys := map cs_numberOfVerificationKeys cs;
        keyIndexAndSchemeAndVerificationKey := map cs_keyIndexAndSchemeAndVerificationKey cs;
        thresholdAndRegIdAndIPIdentity := map cs_thresholdAndRegIdAndIPIdentity cs;
        encIdCredPubShareAndKey := map cs_encIdCredPubShareAndKey cs;
        validToAndCreatedAtAndAttributesLength :=
          map cs_validToAndCreatedAtAndAttributesLength cs;
        attributesLength := map cs_attributesLength cs;
        tag := rows cs_tag;
        valueLength := rows cs_valueLength;
        value := rows cs_value;
        proofLength := map cs_proofLength cs;
        proofs := map cs_proofs cs;
        credentialIdCount := credentialIdCount;
        credentialIds := fst ids;
        threshold := threshold |}.

(** A credential as the bytes of the update-credentials payload lay it out,
    field by field in the order [serializeUpdateCredentials] reads them. *)
Record Credential : Type := {
  cr_index : byte;
  cr_keyCount : byte;
  cr_key : list byte;                 (** key index, scheme and key: 34 bytes *)
  cr_thresholdRegIdIp : list byte;    (** 56 bytes *)
  cr_encIdCredPub : list byte;        (** 100 bytes *)
  cr_dates : list byte;               (** valid-to and created-at: 6 bytes *)
  cr_attributes : list (byte * list byte);   (** tag and value *)
  cr_proofs : list byte
}.

Definition attributeBytes (a : byte * list byte) : list byte :=
  [fst a; byteOfZ (Z.of_nat (length (snd a)))] ++ snd a.

Definition credentialBytes (c : Credential) : list byte :=
  [cr_index c; cr_keyCount c] ++ cr_key c ++ cr_thresholdRegIdIp c ++ cr_encIdCredPub c
  ++ cr_dates c ++ beBytes 2 (Z.of_nat (length (cr_attributes c)))
  ++ concat (map attributeBytes (cr_attributes c))
  ++ beBytes 4 (Z.of_nat (length (cr_proofs c))) ++ cr_proofs c.

(** The field widths and counts those bytes can express. *)
Definition wellFormedCredential (c : Credential) : Prop :=
  length (cr_key c) = 34%nat /\ length (cr_thresholdRegIdIp c) = 56%nat /\
  length (cr_encIdCredPub c) = 100%nat /\ length (cr_dates c) = 6%nat /\
  Z.of_nat (length (cr_attributes c)) < 65536 /\
  Forall (fun a => length (snd a) < 256)%nat (cr_attributes c) /\
  Z.of_nat (length (cr_proofs c)) < 2 ^ 32.

(** A credential with two attributes and a three-byte proof. *)
Definition exampleCredential : Credential :=
  {| cr_index := x00; cr_keyCount := x01; cr_key := repeat x03 34;
     cr_thresholdRegIdIp := repeat x04 56; cr_encIdCredPub := repeat x05 100;
     cr_dates := repeat x06 6; cr_attributes := [(x01, [x0a]); (x02, [x0b; x0c])];
     cr_proofs := [x0d; x0e; x0f] |}.

(** The slices [serializeUpdateCredentials] should read for a credential laid
    out by [credentialBytes]. *)
Definition credentialSlicesOf (c : Credential) : CredentialSlices :=
  {| cs_credentialIndex := [cr_index c];
     cs_numberOfVerificationKeys := [cr_keyCount c];
     cs_keyIndexAndSchemeAndVerificationKey := cr_key c;
     cs_thresholdAndRegIdAndIPIdentity := cr_thresholdRegIdIp c;
     cs_encIdCredPubShareAndKey := cr_encIdCredPub c;
     cs_validToAndCreatedAtAndAttributesLength :=
       cr_dates c ++ beBytes 2 (Z.of_nat (length (cr_attributes c)));
     cs_attributesLength := beBytes 2 (Z.of_nat (length (cr_attributes c)));
     cs_tag := map (fun a => [fst a]) (cr_attributes c);
     cs_valueLength := map (fun a => [byteOfZ (Z.of_nat (length (snd a)))]) (cr_attributes c);
     cs_value := map snd (cr_attributes c);
     cs_proofLength := beBytes 4 (Z.of_nat (length (cr_proofs c)));
     cs_proofs := cr_proofs c |}.

(* ================================================================== *)
(** * Proofs *)

(** Peel the [let*] steps of a hypothesis [H : ... = Ok _], discarding the
    branches that throw. *)
Ltac bind_inv H :=
  repeat match type of H with
  | context [bind ?m _] =>
      let E := fresh "E" in
      destruct m eqn:E; cbn [bind] in H; try discriminate H
  end.

Lemma newDataBlob_ok (d : list byte) (f : JsField) :
  newDataBlob d = Ok f -> f = JsDataBlob d /\ (length d <= 256)%nat.
Proof.
  unfold newDataBlob. destruct (Nat.ltb_spec 256 (length d)) as [Hl|Hl]; intros H;
    [discriminate|].
  injection H as <-. split; [reflexivity | exact Hl].
Qed.

(** Past [new DataBlob(buffer)] in a serializer that succeeded: the field
    now holds the blob of the buffer. *)
Ltac blob_inv H :=
  let Hb := fresh "Hblob" in
  destruct (newDataBlob _) as [?blob|?e] eqn:Hb; [|cbn [fst] in H; discriminate H];
  apply newDataBlob_ok in Hb; destruct Hb as [-> ?Hle]; cbn [fst] in H.

(** ** Frame splitter: loop lemmas *)

Lemma chunkSizeAt_bounds (len offset : nat) :
  (offset < len)%nat ->
  (1 <= chunkSizeAt len offset)%nat /\ (offset + chunkSizeAt len offset <= len)%nat
  /\ (chunkSizeAt len offset <= MAX_CHUNK_SIZE)%nat.
Proof.
  unfold chunkSizeAt, MAX_CHUNK_SIZE; intros Hlt.
  destruct (Nat.ltb_spec len (offset + 255)); lia.
Qed.

Lemma payloadsLoop_concat (fuel : nat) (rawTx : list byte) (offset : nat) :
  (length rawTx - offset < fuel)%nat -> (offset <= length rawTx)%nat ->
  concat (payloadsLoop fuel rawTx offset) = skipn offset rawTx.
Proof.
  revert offset; induction fuel as [|fuel IH]; intros offset Hfuel Hoff; [lia|].
  simpl. destruct (Nat.eqb_spec offset (length rawTx)) as [->|Hne].
  - now rewrite skipn_all.
  - destruct (chunkSizeAt_bounds (length rawTx) offset) as (H1 & H2 & _); [lia|].
    simpl; rewrite IH by lia.
    rewrite Nat.add_comm, <- skipn_skipn. apply firstn_skipn.
Qed.

Lemma payloadsWithPathLoop_later (fuel : nat) (pathBuffer rawTx : list byte)
  (offset : nat) :
  (0 < offset)%nat ->
  payloadsWithPathLoop fuel pathBuffer rawTx offset = payloadsLoop fuel rawTx offset.
Proof.
  revert offset; induction fuel as [|fuel IH]; intros offset Hpos; [reflexivity|].
  simpl. destruct (offset =? length rawTx)%nat; [reflexivity|].
  replace (offset =? 0)%nat with false by (symmetry; apply Nat.eqb_neq; lia).
  f_equal. apply IH. lia.
Qed.

Lemma payloadsWithPathLoop_first (pathBuffer rawTx : list byte) :
  payloadsWithPathLoop (S (length rawTx)) pathBuffer rawTx 0 =
  match payloadsLoop (S (length rawTx)) rawTx 0 with
  | [] => []
  | f :: rest => (pathBuffer ++ f) :: rest
  end.
Proof.
  simpl. destruct (length rawTx) as [|n] eqn:Hlen; [reflexivity|].
  rewrite <- Hlen. f_equal. destruct (chunkSizeAt_bounds (length rawTx) 0) as (H1 & _); [lia|].
  apply payloadsWithPathLoop_later. lia.
Qed.

Lemma removePathPrefix_first (pathBuffer rawTx : list byte) :
  removePathPrefix pathBuffer (payloadsWithPathLoop (S (length rawTx)) pathBuffer rawTx 0)
  = serializeTransactionPayloads rawTx.
Proof.
  rewrite payloadsWithPathLoop_first. unfold serializeTransactionPayloads.
  destruct (payloadsLoop (S (length rawTx)) rawTx 0) as [|f rest]; [reflexivity|].
  simpl. rewrite skipn_app, skipn_all, Nat.sub_diag. reflexivity.
Qed.

Lemma serializeTransactionPayloads_concat (rawTx : list byte) :
  concat (serializeTransactionPayloads rawTx) = rawTx.
Proof. unfold serializeTransactionPayloads. rewrite payloadsLoop_concat; auto; lia. Qed.

(** C1: concatenating the frames of [serializeTransactionPayloads] gives back
    its input; for [serializeTransactionPayloadsWithDerivationPath], every
    successful split puts the path encoding in front of the first frame, and
    concatenating the frames with that prefix removed gives back the input. *)
Theorem frames_concat_roundtrip :
  (forall rawTx, concat (serializeTransactionPayloads rawTx) = rawTx) /\
  (forall path rawTx frames,
     serializeTransactionPayloadsWithDerivationPath path rawTx = Ok frames ->
     exists pathBuffer,
       derivationPathBuffer (splitPath path) = Ok pathBuffer /\
       (rawTx <> [] -> exists f rest, frames = (pathBuffer ++ f) :: rest) /\
       concat (removePathPrefix pathBuffer frames) = rawTx).
Proof.
  split; [apply serializeTransactionPayloads_concat|].
  intros path rawTx frames Hser.
  unfold serializeTransactionPayloadsWithDerivationPath in Hser.
  destruct (derivationPathBuffer (splitPath path)) as [pathBuffer|e]; [|discriminate].
  cbn [bind] in Hser.
  assert (Hf : frames = payloadsWithPathLoop (S (length rawTx)) pathBuffer rawTx 0)
    by congruence.
  subst frames. clear Hser.
  exists pathBuffer. split; [reflexivity|]. split.
  - intros Hne. rewrite payloadsWithPathLoop_first.
    unfold serializeTransactionPayloads. simpl.
    destruct (length rawTx) as [|n] eqn:Hlen.
    + destruct rawTx; [congruence|discriminate].
    + eexists; eexists; reflexivity.
  - rewrite removePathPrefix_first. apply serializeTransactionPayloads_concat.
Qed.

Lemma frames_concat_roundtrip_witness :
  exists frames,
    serializeTransactionPayloadsWithDerivationPath "44'/919'/0'/0/0"%string (repeat x07 300)
      = Ok frames /\
    exists pathBuffer,
      derivationPathBuffer (splitPath "44'/919'/0'/0/0"%string) = Ok pathBuffer /\
      (repeat x07 300 <> [] -> exists f rest, frames = (pathBuffer ++ f) :: rest) /\
      concat (removePathPrefix pathBuffer frames) = repeat x07 300.
Proof.
  eexists. split; [vm_compute; reflexivity|].
  apply (proj2 frames_concat_roundtrip "44'/919'/0'/0/0"%string). vm_compute. reflexivity.
Defined.

(** ** Schedule framing *)

Lemma beBytes_length (k : nat) (v : Z) : length (beBytes k v) = k.
Proof.
  revert v; induction k as [|k IH]; intros v; [reflexivity|].
  simpl. rewrite length_app, IH. simpl. lia.
Qed.

Lemma serializeTransactionPayloads_single (l : list byte) :
  (0 < length l <= MAX_CHUNK_SIZE)%nat -> serializeTransactionPayloads l = [l].
Proof.
  unfold serializeTransactionPayloads, MAX_CHUNK_SIZE. intros Hl. simpl.
  destruct (length l) as [|len] eqn:Hlen; [lia|].
  assert (Hc : chunkSizeAt (S len) 0 = S len).
  { unfold chunkSizeAt, MAX_CHUNK_SIZE.
    destruct (Nat.ltb_spec (S len) (0 + 255)); lia. }
  rewrite Hc, <- Hlen, firstn_all. f_equal.
  rewrite Hlen at 1. simpl. rewrite Nat.eqb_refl. reflexivity.
Qed.

Lemma schedule_chunk (ser : list byte) (n i off : Z) :
  Z.of_nat (length ser) = 16 * n -> 0 <= i < n -> 1 <= off ->
  subarray ser (i * 16) ((i + off) * 16)
  = firstn (Z.to_nat (16 * Z.min off (n - i))) (skipn (Z.to_nat (16 * i)) ser).
Proof.
  intros Hlen Hi Hoff. unfold subarray, relIndex. rewrite Hlen.
  replace (i * 16 <? 0) with false by (symmetry; apply Z.ltb_ge; lia).
  replace ((i + off) * 16 <? 0) with false by (symmetry; apply Z.ltb_ge; lia).
  replace (Z.min (i * 16) (16 * n)) with (16 * i) by lia.
  f_equal. f_equal. lia.
Qed.

Lemma div15_step (x : Z) : 1 <= x -> (x + 14) / 15 = (x - 1) / 15 + 1 /\ 0 <= (x - 1) / 15.
Proof.
  intros Hx. split.
  - replace (x + 14) with ((x - 1) + 1 * 15) by lia. apply Z.div_add. lia.
  - apply Z.div_pos; lia.
Qed.

Lemma scheduleLoop_spec (ser : list byte) (n : Z) :
  Z.of_nat (length ser) = 16 * n ->
  forall fuel i rem,
    0 <= i -> n - i <= 15 * Z.of_nat fuel ->
    ((i = 0 /\ rem = n) \/ (15 <= i /\ rem = n - 15)) ->
    concat (scheduleLoop fuel n ser i rem) = skipn (Z.to_nat (16 * i)) ser /\
    Z.of_nat (length (scheduleLoop fuel n ser i rem)) = Z.max 0 ((n - i + 14) / 15) /\
    Forall (fun f => exists m, 1 <= m <= 15 /\ Z.of_nat (length f) = 16 * m)
           (scheduleLoop fuel n ser i rem).
Proof.
  intros Hlen fuel. induction fuel as [|fuel IH]; intros i rem Hi Hfuel Hinv.
  - cbn [Z.of_nat] in Hfuel. assert (Hq : (n - i + 14) / 15 < 1) by (apply Z.div_lt_upper_bound; lia).
    cbn [scheduleLoop concat]. rewrite skipn_all2 by lia.
    split; [reflexivity|]. split; [cbn [length Z.of_nat]; lia | constructor].
  - cbn [scheduleLoop]. destruct (Z.ltb_spec i n) as [Hin|Hin].
    + set (off := if rem >? MAX_SCHEDULE_CHUNK_SIZE then MAX_SCHEDULE_CHUNK_SIZE else rem).
      assert (Hoff : 1 <= off /\ Z.min off (n - i) = Z.min 15 (n - i)).
      { unfold off, MAX_SCHEDULE_CHUNK_SIZE.
        destruct (Z.gtb_spec rem 15); lia. }
      destruct Hoff as [Hoff1 Hoff2].
      rewrite (schedule_chunk ser n i off Hlen) by lia. rewrite Hoff2.
      set (X := skipn (Z.to_nat (16 * i)) ser).
      assert (HX : Z.of_nat (length X) = 16 * n - 16 * i)
        by (unfold X; rewrite length_skipn; lia).
      set (m := Z.min 15 (n - i)).
      assert (Hchunk : length (firstn (Z.to_nat (16 * m)) X) = Z.to_nat (16 * m))
        by (rewrite length_firstn; lia).
      rewrite serializeTransactionPayloads_single
        by (rewrite Hchunk; unfold m, MAX_CHUNK_SIZE; lia).
      destruct (IH (i + MAX_SCHEDULE_CHUNK_SIZE) (n - MAX_SCHEDULE_CHUNK_SIZE))
        as (Hcat & Hcnt & Hall);
        unfold MAX_SCHEDULE_CHUNK_SIZE in *; try lia.
      repeat split.
      * cbn [concat app]. rewrite Hcat.
        destruct (Z.le_gt_cases 15 (n - i)) as [Hge|Hlt].
        -- replace m with 15 by (unfold m; lia).
           replace (skipn (Z.to_nat (16 * (i + 15))) ser) with (skipn (Z.to_nat 240) X)
             by (unfold X; rewrite skipn_skipn; f_equal; lia).
           apply firstn_skipn.
        -- rewrite skipn_all2 by lia. rewrite app_nil_r.
           apply firstn_all2. unfold m. lia.
      * rewrite length_app, Nat2Z.inj_add, Hcnt. cbn [length Z.of_nat].
        destruct (div15_step (n - i)) as [Hd1 Hd2]; [lia|].
        replace (n - (i + 15) + 14) with (n - i - 1) by lia. lia.
      * constructor; [|exact Hall]. exists m. split; [unfold m; lia|].
        rewrite Hchunk. unfold m; lia.
    + assert (Hq : (n - i + 14) / 15 < 1) by (apply Z.div_lt_upper_bound; lia).
      rewrite skipn_all2 by lia.
    split; [reflexivity|]. split; [cbn [length Z.of_nat]; lia | constructor].
Qed.

Lemma encodeWord64_ok (v : Z) (b : list byte) : encodeWord64 v = Ok b -> b = beBytes 8 v.
Proof.
  unfold encodeWord64. destruct (_ || _); intros H; [discriminate|]. congruence.
Qed.

Lemma mapM_serializeScheduleItem (sched : list (Z * Z)) (buf : list (list byte)) :
  mapM serializeScheduleItem sched = Ok buf ->
  buf = map (fun it => beBytes 8 (fst it) ++ beBytes 8 (snd it)) sched.
Proof.
  revert buf; induction sched as [|it sched IH]; intros buf H; cbn [mapM] in H.
  - injection H as <-. reflexivity.
  - bind_inv H. injection H as <-. rename E into Hit, E0 into Hrest.
    unfold serializeScheduleItem in Hit. bind_inv Hit. injection Hit as <-.
    apply encodeWord64_ok in E, E0. subst. cbn [map]. f_equal. auto.
Qed.

Lemma pairs_length (sched : list (Z * Z)) :
  length (concat (map (fun it => beBytes 8 (fst it) ++ beBytes 8 (snd it)) sched))
  = (16 * length sched)%nat.
Proof.
  induction sched as [|it sched IH]; [reflexivity|].
  cbn [map concat]. rewrite !length_app, IH, !beBytes_length. cbn [length]. lia.
Qed.

Lemma encodeInt8_size_ok (n : nat) (b : list byte) :
  encodeInt8 (sizeQ n) = Ok b -> (n <= 127)%nat.
Proof.
  unfold encodeInt8, Qgt, sizeQ.
  destruct (Qle_bool (inject_Z (Z.of_nat n)) (inject_Z 127)) eqn:Hle;
    simpl; intros H; [|discriminate].
  apply Qle_bool_iff in Hle. rewrite <- Zle_Qle in Hle. lia.
Qed.

(** The schedule frames of both scheduled-transfer serializers. *)
Lemma schedulePayloads_spec (sched : list (Z * Z)) (buf : list (list byte)) :
  mapM serializeScheduleItem sched = Ok buf -> (1 <= length sched)%nat ->
  let frames := schedulePayloads (length buf) (concat buf) in
  Z.of_nat (length frames) = (Z.of_nat (length sched) + 14) / 15 /\
  Forall (fun f => exists m, 1 <= m <= 15 /\ Z.of_nat (length f) = 16 * m) frames /\
  concat frames = concat (map (fun it => beBytes 8 (fst it) ++ beBytes 8 (snd it)) sched) /\
  length (concat frames) = (16 * length sched)%nat.
Proof.
  intros Hbuf Hn. apply mapM_serializeScheduleItem in Hbuf. subst buf.
  cbv zeta. rewrite length_map. unfold schedulePayloads.
  destruct (scheduleLoop_spec
              (concat (map (fun it => beBytes 8 (fst it) ++ beBytes 8 (snd it)) sched))
              (Z.of_nat (length sched)))
    with (fuel := S (length sched)) (i := 0) (rem := Z.of_nat (length sched))
    as (Hcat & Hcnt & Hall); try (rewrite ?pairs_length; lia).
  rewrite Hcat. cbn [Z.to_nat skipn]. repeat split; auto.
  - rewrite Hcnt. assert (0 <= (Z.of_nat (length sched) - 0 + 14) / 15)
      by (apply Z.div_pos; lia).
    replace (Z.of_nat (length sched) - 0) with (Z.of_nat (length sched)) in * by lia. lia.
  - apply pairs_length.
Qed.

(** C2 (as amended): for a schedule of [n >= 1] pairs, whenever
    [serializeTransferWithSchedule] or [serializeTransferWithScheduleAndMemo]
    succeeds, [n <= 127] (the count goes through the signed 8-bit encoder),
    there are [ceil(n/15)] schedule frames, each holding 1 to 15 whole
    16-byte pairs, and their concatenation is the [n * 16] bytes of the
    serialized pairs in order. *)
Theorem schedule_frames_amended :
  (forall path txn out,
     serializeTransferWithSchedule path txn = Ok out ->
     (1 <= length (st_schedule txn))%nat ->
     (length (st_schedule txn) <= 127)%nat /\
     Z.of_nat (length (payloadsSchedule out)) = (Z.of_nat (length (st_schedule txn)) + 14) / 15 /\
     Forall (fun f => exists m, 1 <= m <= 15 /\ Z.of_nat (length f) = 16 * m)
            (payloadsSchedule out) /\
     concat (payloadsSchedule out)
       = concat (map (fun it => beBytes 8 (fst it) ++ beBytes 8 (snd it)) (st_schedule txn)) /\
     length (concat (payloadsSchedule out)) = (16 * length (st_schedule txn))%nat) /\
  (forall path txn out,
     fst (serializeTransferWithScheduleAndMemo path txn) = Ok out ->
     let sched := smp_schedule (smt_payload txn) in
     (1 <= length sched)%nat ->
     (length sched <= 127)%nat /\
     Z.of_nat (length (payloadsScheduleM out)) = (Z.of_nat (length sched) + 14) / 15 /\
     Forall (fun f => exists m, 1 <= m <= 15 /\ Z.of_nat (length f) = 16 * m)
            (payloadsScheduleM out) /\
     concat (payloadsScheduleM out)
       = concat (map (fun it => beBytes 8 (fst it) ++ beBytes 8 (snd it)) sched) /\
     length (concat (payloadsScheduleM out)) = (16 * length sched)%nat).
Proof.
  split.
  - intros path txn out Hser Hn. unfold serializeTransferWithSchedule in Hser.
    destruct (encodeInt8 _) as [cnt|] eqn:Hcnt; [|discriminate]. cbn [bind] in Hser.
    destruct (mapM serializeScheduleItem _) as [buf|] eqn:Hbuf; [|discriminate].
    cbn [bind] in Hser.
    destruct (serializeAccountTransactionHeader _ _); [|discriminate]. cbn [bind] in Hser.
    destruct (serializeTransactionPayloadsWithDerivationPath _ _); [|discriminate].
    cbn [bind] in Hser. injection Hser as <-. cbn [payloadsSchedule].
    split; [exact (encodeInt8_size_ok _ _ Hcnt)|].
    exact (schedulePayloads_spec _ _ Hbuf Hn).
  - intros path txn out Hser sched Hn. unfold serializeTransferWithScheduleAndMemo in Hser.
    destruct (bufferFromField _) as [memoBuffer|]; [|discriminate]. blob_inv Hser.
    destruct (encodeInt8 _) as [cnt|] eqn:Hcnt; [|discriminate]. cbn [bind] in Hser.
    destruct (mapM serializeScheduleItem _) as [buf|] eqn:Hbuf; [|discriminate].
    cbn [bind] in Hser.
    destruct (blobData _); [|discriminate]. cbn [bind] in Hser.
    destruct (encodeDataBlob _); [|discriminate]. cbn [bind] in Hser.
    destruct (serializeAccountTransactionHeader _ _); [|discriminate]. cbn [bind] in Hser.
    destruct (serializeTransactionPayloadsWithDerivationPath _ _); [|discriminate].
    cbn [bind] in Hser. injection Hser as <-. cbn [payloadsScheduleM].
    split; [exact (encodeInt8_size_ok _ _ Hcnt)|].
    exact (schedulePayloads_spec _ _ Hbuf Hn).
Qed.

Lemma schedule_frames_amended_witness :
  exists out,
    serializeTransferWithSchedule examplePath (exampleScheduleTxn 20) = Ok out /\
    (20 <= 127)%nat /\
    Z.of_nat (length (payloadsSchedule out)) = (Z.of_nat 20 + 14) / 15 /\
    length (concat (payloadsSchedule out)) = (16 * 20)%nat.
Proof.
  eexists. split; [vm_compute; reflexivity|].
  destruct (proj1 schedule_frames_amended examplePath (exampleScheduleTxn 20) _
              ltac:(vm_compute; reflexivity) ltac:(cbn; lia))
    as (Hle & Hcnt & _ & _ & Hlen).
  split; [exact Hle|]. split; [exact Hcnt | exact Hlen].
Defined.

(** C2 fails as stated: a schedule of 128 pairs (within the spec's bound of
    255) makes [serializeTransferWithSchedule] throw before any frame is
    built, because the count goes through the signed [encodeInt8]. *)
Lemma schedule_frames_counterexample :
  serializeTransferWithSchedule examplePath (exampleScheduleTxn 128)
    = Throw (EncodingError "8 bit signed integer" (sizeQ 128)) /\
  ~ exists out, serializeTransferWithSchedule examplePath (exampleScheduleTxn 128) = Ok out.
Proof.
  assert (H : serializeTransferWithSchedule examplePath (exampleScheduleTxn 128)
              = Throw (EncodingError "8 bit signed integer" (sizeQ 128)))
    by (vm_compute; reflexivity).
  split; [exact H|]. intros [out Hout]. congruence.
Qed.

(** ** Payload size in the header *)

Lemma encodeWord32_sizeQ_ok (k : nat) (b : list byte) :
  encodeWord32 (sizeQ k) = Ok b -> b = beBytes 4 (Z.of_nat k).
Proof.
  unfold encodeWord32. destruct (_ || _); intros H; [discriminate|].
  injection H as <-. unfold Qint, sizeQ, inject_Z. cbn [Qnum Qden]. now rewrite Z.div_1_r.
Qed.

Lemma header_layout_ok (h : TxHeader) (k : nat) (hdr : list byte) :
  serializeAccountTransactionHeader h (sizeQ k) = Ok hdr ->
  hdr = headerLayout h (Z.of_nat k).
Proof.
  unfold serializeAccountTransactionHeader. intros H. bind_inv H.
  injection H as <-. apply encodeWord64_ok in E, E0, E2.
  apply encodeWord32_sizeQ_ok in E1. subst. reflexivity.
Qed.

Lemma withPath_unframe (path : string) (rawTx : list byte) (frames : list (list byte)) :
  serializeTransactionPayloadsWithDerivationPath path rawTx = Ok frames ->
  exists pathBuffer,
    derivationPathBuffer (splitPath path) = Ok pathBuffer /\
    concat (removePathPrefix pathBuffer frames) = rawTx.
Proof.
  unfold serializeTransactionPayloadsWithDerivationPath. intros H.
  destruct (derivationPathBuffer (splitPath path)) as [pathBuffer|]; [|discriminate].
  cbn [bind] in H. exists pathBuffer. split; [reflexivity|].
  assert (Hf : frames = payloadsWithPathLoop (S (length rawTx)) pathBuffer rawTx 0)
    by congruence.
  subst frames. rewrite removePathPrefix_first. apply serializeTransactionPayloads_concat.
Qed.

Lemma subarray_first2 (l : list byte) :
  subarray l 0 2 = firstn 2 l /\ subarrayFrom l 2 = skipn 2 l.
Proof.
  unfold subarrayFrom, subarray, relIndex.
  set (len := Z.of_nat (length l)).
  assert (Hlen : 0 <= len) by (unfold len; lia).
  replace (0 <? 0) with false by reflexivity.
  replace (2 <? 0) with false by reflexivity.
  replace (len <? 0) with false by (symmetry; apply Z.ltb_ge; lia).
  rewrite (Z.min_l 0 len) by lia. rewrite Z.min_id.
  assert (Hs : skipn (Z.to_nat (Z.min 2 len)) l = skipn 2 l).
  { destruct (Z.le_gt_cases 2 len).
    - replace (Z.to_nat (Z.min 2 len)) with 2%nat by lia. reflexivity.
    - rewrite !skipn_all2 by (unfold len in *; lia). reflexivity. }
  split.
  - cbn [Z.to_nat skipn].
    destruct (Z.le_gt_cases 2 len).
    + replace (Z.to_nat (Z.min 2 len - 0)) with 2%nat by lia. reflexivity.
    + rewrite !firstn_all2 by (unfold len in *; lia). reflexivity.
  - rewrite Hs. apply firstn_all2. rewrite length_skipn. unfold len in *. lia.
Qed.

Lemma unframe_ok (path : string) (rawTx : list byte) (frames : list (list byte)) :
  serializeTransactionPayloadsWithDerivationPath path rawTx = Ok frames ->
  unframe path frames = rawTx.
Proof.
  intros H. destruct (withPath_unframe _ _ _ H) as (pb & Hpb & Hcat).
  unfold unframe. now rewrite Hpb.
Qed.

Lemma schedulePayloads_concat (sched : list (Z * Z)) (buf : list (list byte)) :
  mapM serializeScheduleItem sched = Ok buf ->
  concat (schedulePayloads (length buf) (concat buf)) = concat buf.
Proof.
  intros Hbuf. destruct sched as [|it sched'] eqn:Hs.
  - cbn [mapM] in Hbuf. injection Hbuf as <-. reflexivity.
  - rewrite <- Hs in Hbuf.
    destruct (schedulePayloads_spec sched buf Hbuf) as (_ & _ & Hcat & _);
      [subst; cbn [length]; lia|].
    rewrite Hcat. apply mapM_serializeScheduleItem in Hbuf. now subst.
Qed.

Ltac size_arith :=
  match goal with
  | |- headerLayout ?h _ = headerLayout ?h _ =>
      f_equal; f_equal; rewrite ?length_app; cbn [length serializedTypeOf]; lia
  end.

Lemma size_memo (path : string) (txn : MemoTxn) (out : MemoFrames) :
  fst (serializeSimpleTransferWithMemo path txn) = Ok out ->
  sizedTransaction (mt_header txn)
    (unframe path (payloadHeaderAddressMemoLength out)
       ++ concat (payloadsMemo out) ++ concat (payloadsAmount out)).
Proof.
  unfold serializeSimpleTransferWithMemo. intros H.
  destruct (bufferFromField _); [|discriminate]. blob_inv H. bind_inv H.
  injection H as <-. cbn [payloadHeaderAddressMemoLength payloadsMemo payloadsAmount].
  rewrite (unframe_ok _ _ _ E3), !serializeTransactionPayloads_concat.
  destruct (subarray_first2 a2) as [S1 S2]. rewrite S1, S2.
  apply header_layout_ok in E2. cbn [mt_header mt_payload mp_toAddress setMemo] in *.
  exists a3, (mp_toAddress (mt_payload txn) ++ a2 ++ a0). split.
  - rewrite <- (firstn_skipn 2 a2) at 3. rewrite !app_assoc. reflexivity.
  - rewrite E2. size_arith.
Qed.

Lemma size_account (h : TxHeader) (payload tx : list byte) :
  serializeAccountTransaction h payload = Ok tx ->
  tx = headerLayout h (Z.of_nat (length payload + 1)) ++ serializedTypeOf h ++ payload.
Proof.
  unfold serializeAccountTransaction. intros H. bind_inv H.
  injection H as <-. apply header_layout_ok in E. now rewrite E.
Qed.

Lemma size_streaming (h : TxHeader) (payload : list byte) (path : string)
  (frames : list (list byte)) :
  serializeTransaction h payload path = Ok frames ->
  sizedTransaction h (unframe path frames).
Proof.
  unfold serializeTransaction. intros H. bind_inv H.
  rewrite (unframe_ok _ _ _ H). apply size_account in E.
  exists (headerLayout h (Z.of_nat (length payload + 1))), payload. now split.
Qed.

Lemma size_schedule (path : string) (txn : ScheduleTxn) (out : ScheduleFrames) :
  serializeTransferWithSchedule path txn = Ok out ->
  sizedTransaction (st_header txn)
    (unframe path (payloadHeaderAddressScheduleLength out)
       ++ concat (payloadsSchedule out)).
Proof.
  unfold serializeTransferWithSchedule. intros H. bind_inv H.
  injection H as <-. cbn [payloadHeaderAddressScheduleLength payloadsSchedule].
  rewrite (unframe_ok _ _ _ E2), (schedulePayloads_concat _ _ E0).
  apply header_layout_ok in E1.
  exists a1, (st_toAddress txn ++ a ++ concat a0). split.
  - rewrite !app_assoc. reflexivity.
  - rewrite E1. size_arith.
Qed.

Lemma size_schedule_memo (path : string) (txn : ScheduleMemoTxn)
  (out : ScheduleMemoFrames) :
  fst (serializeTransferWithScheduleAndMemo path txn) = Ok out ->
  sizedTransaction (smt_header txn)
    (unframe path (payloadHeaderAddressScheduleLengthAndMemoLength out)
       ++ concat (payloadMemo out) ++ concat (payloadsScheduleM out)).
Proof.
  unfold serializeTransferWithScheduleAndMemo. intros H.
  destruct (bufferFromField _); [|discriminate]. blob_inv H. bind_inv H.
  injection H as <-.
  cbn [payloadHeaderAddressScheduleLengthAndMemoLength payloadMemo payloadsScheduleM].
  cbn [smt_header smt_payload smp_toAddress smp_schedule smp_memo setScheduleMemo] in *.
  rewrite (unframe_ok _ _ _ E4), (schedulePayloads_concat _ _ E0),
    serializeTransactionPayloads_concat.
  destruct (subarray_first2 a3) as [S1 S2]. rewrite S1, S2.
  apply header_layout_ok in E3.
  exists a4, (smp_toAddress (smt_payload txn) ++ a0 ++ a3 ++ concat a1). split.
  - rewrite <- (firstn_skipn 2 a3) at 3. rewrite !app_assoc. reflexivity.
  - rewrite E3. size_arith.
Qed.

Lemma size_register_data (path : string) (txn : DataTxn) (out : DataFrames) :
  fst (serializeRegisterData path txn) = Ok out ->
  sizedTransaction (dt_header txn)
    (unframe path (payloadHeader out) ++ concat (payloadsData out)).
Proof.
  unfold serializeRegisterData. intros H.
  destruct (bufferFromField _); [|discriminate]. blob_inv H. bind_inv H.
  injection H as <-. cbn [payloadHeader payloadsData dt_header dt_data] in *.
  rewrite (unframe_ok _ _ _ E2), serializeTransactionPayloads_concat.
  destruct (subarray_first2 a1) as [S1 S2]. rewrite S1, S2.
  apply header_layout_ok in E1.
  exists a2, a1. split.
  - rewrite <- (firstn_skipn 2 a1) at 3. rewrite !app_assoc. reflexivity.
  - rewrite E1. size_arith.
Qed.

Lemma size_to_public (path : string) (txn : ToPublicTxn) (out : ToPublicFrames) :
  serializeTransferToPublic path txn = Ok out ->
  sizedTransaction (tp_header txn)
    (unframe path (tpPayloadHeader out)
       ++ concat (payloadsAmountAndProofsLength out) ++ concat (payloadsProofs out)).
Proof.
  unfold serializeTransferToPublic. intros H. bind_inv H.
  injection H as <-. cbn [tpPayloadHeader payloadsAmountAndProofsLength payloadsProofs].
  rewrite (unframe_ok _ _ _ E3), !serializeTransactionPayloads_concat.
  apply header_layout_ok in E2.
  exists a2, (tp_remainingAmount txn ++ a ++ a0 ++ a1 ++ tp_proofs txn). split.
  - rewrite !app_assoc. reflexivity.
  - rewrite E2. size_arith.
Qed.

(** C3: for every per-kind serializer that succeeds, the bytes carried by its
    frames (path prefix removed) are [header ‖ kind ‖ payload] where the
    header's 32-bit payload-size field is [length payload + 1]: the size is
    derived from the serialized payload, for the plain account transaction,
    the streamed kinds of [serializeTransaction], the memo transfer, the
    transfers with schedule (with and without memo), register data and
    transfer to public. *)
Theorem payload_size_field :
  (forall h payload tx, serializeAccountTransaction h payload = Ok tx ->
     tx = headerLayout h (Z.of_nat (length payload + 1)) ++ serializedTypeOf h ++ payload) /\
  (forall h payload path frames, serializeTransaction h payload path = Ok frames ->
     sizedTransaction h (unframe path frames)) /\
  (forall path txn out, fst (serializeSimpleTransferWithMemo path txn) = Ok out ->
     sizedTransaction (mt_header txn)
       (unframe path (payloadHeaderAddressMemoLength out)
          ++ concat (payloadsMemo out) ++ concat (payloadsAmount out))) /\
  (forall path txn out, serializeTransferWithSchedule path txn = Ok out ->
     sizedTransaction (st_header txn)
       (unframe path (payloadHeaderAddressScheduleLength out)
          ++ concat (payloadsSchedule out))) /\
  (forall path txn out, fst (serializeTransferWithScheduleAndMemo path txn) = Ok out ->
     sizedTransaction (smt_header txn)
       (unframe path (payloadHeaderAddressScheduleLengthAndMemoLength out)
          ++ concat (payloadMemo out) ++ concat (payloadsScheduleM out))) /\
  (forall path txn out, fst (serializeRegisterData path txn) = Ok out ->
     sizedTransaction (dt_header txn)
       (unframe path (payloadHeader out) ++ concat (payloadsData out))) /\
  (forall path txn out, serializeTransferToPublic path txn = Ok out ->
     sizedTransaction (tp_header txn)
       (unframe path (tpPayloadHeader out)
          ++ concat (payloadsAmountAndProofsLength out) ++ concat (payloadsProofs out))).
Proof.
  split; [exact size_account|]. split; [exact size_streaming|].
  split; [exact size_memo|]. split; [exact size_schedule|].
  split; [exact size_schedule_memo|]. split; [exact size_register_data|].
  exact size_to_public.
Qed.

Lemma payload_size_field_witness :
  (exists tx, serializeAccountTransaction (exampleHeader 0) examplePayload = Ok tx /\
     tx = headerLayout (exampleHeader 0) 41 ++ [x00] ++ examplePayload) /\
  (exists frames, serializeTransaction (exampleHeader 0) examplePayload examplePath = Ok frames /\
     sizedTransaction (exampleHeader 0) (unframe examplePath frames)) /\
  (exists out, fst (serializeSimpleTransferWithMemo examplePath exampleMemoTxn) = Ok out /\
     sizedTransaction (mt_header exampleMemoTxn)
       (unframe examplePath (payloadHeaderAddressMemoLength out)
          ++ concat (payloadsMemo out) ++ concat (payloadsAmount out))) /\
  (exists out, serializeTransferWithSchedule examplePath (exampleScheduleTxn 20) = Ok out /\
     sizedTransaction (st_header (exampleScheduleTxn 20))
       (unframe examplePath (payloadHeaderAddressScheduleLength out)
          ++ concat (payloadsSchedule out))) /\
  (exists out, fst (serializeTransferWithScheduleAndMemo examplePath (exampleScheduleMemoTxn 20)) = Ok out /\
     sizedTransaction (smt_header (exampleScheduleMemoTxn 20))
       (unframe examplePath (payloadHeaderAddressScheduleLengthAndMemoLength out)
          ++ concat (payloadMemo out) ++ concat (payloadsScheduleM out))) /\
  (exists out, fst (serializeRegisterData examplePath exampleDataTxn) = Ok out /\
     sizedTransaction (dt_header exampleDataTxn)
       (unframe examplePath (payloadHeader out) ++ concat (payloadsData out))) /\
  (exists out, serializeTransferToPublic examplePath exampleToPublicTxn = Ok out /\
     sizedTransaction (tp_header exampleToPublicTxn)
       (unframe examplePath (tpPayloadHeader out)
          ++ concat (payloadsAmountAndProofsLength out) ++ concat (payloadsProofs out))).
Proof.
  destruct payload_size_field as (P1 & P2 & P3 & P4 & P5 & P6 & P7).
  split; [eexists; split; [vm_compute; reflexivity|];
          apply (P1 (exampleHeader 0) examplePayload); vm_compute; reflexivity|].
  split; [eexists; split; [vm_compute; reflexivity|];
          apply (P2 (exampleHeader 0) examplePayload examplePath); vm_compute; reflexivity|].
  split; [eexists; split; [vm_compute; reflexivity|];
          apply (P3 examplePath exampleMemoTxn); vm_compute; reflexivity|].
  split; [eexists; split; [vm_compute; reflexivity|];
          apply (P4 examplePath (exampleScheduleTxn 20)); vm_compute; reflexivity|].
  split; [eexists; split; [vm_compute; reflexivity|];
          apply (P5 examplePath (exampleScheduleMemoTxn 20)); vm_compute; reflexivity|].
  split; [eexists; split; [vm_compute; reflexivity|];
          apply (P6 examplePath exampleDataTxn); vm_compute; reflexivity|].
  eexists; split; [vm_compute; reflexivity|].
  apply (P7 examplePath exampleToPublicTxn); vm_compute; reflexivity.
Defined.

Lemma encodeWord64_range (v : Z) :
  (exists b, encodeWord64 v = Ok b) <-> 0 <= v <= WORD64_BOUND.
Proof.
  unfold encodeWord64. split.
  - intros [b Hb]. destruct (Z.ltb_spec WORD64_BOUND v), (Z.ltb_spec v 0);
      cbn [orb] in Hb; try discriminate; lia.
  - intros Hv. destruct (Z.ltb_spec WORD64_BOUND v), (Z.ltb_spec v 0); try lia.
    eexists; reflexivity.
Qed.

(** C5: [encodeWord64] is not bounded at [2^64]: its bound
    [BigInt(18446744073709551615)] is the number [2^64], so the encoder
    accepts exactly the integers of [[0, 2^64]]; on [2^64] it succeeds and
    writes eight zero bytes ([setBigUint64] wraps).  The 32-bit unsigned
    encoder has the boundary the spec gives: [2^32] fails, [2^32 - 1]
    succeeds. *)
Theorem encodeWord64_accepts_2_64 :
  encodeWord64 18446744073709551616 = Ok (repeat x00 8) /\
  (forall v, (exists b, encodeWord64 v = Ok b) <-> 0 <= v <= 2 ^ 64) /\
  encodeWord32 (inject_Z (2 ^ 32))
    = Throw (EncodingError "32 bit unsigned integer" (inject_Z (2 ^ 32))) /\
  encodeWord32 (inject_Z (2 ^ 32 - 1)) = Ok [xff; xff; xff; xff].
Proof.
  split; [vm_compute; reflexivity|].
  split; [intros v; rewrite encodeWord64_range; unfold WORD64_BOUND; lia|].
  split; vm_compute; reflexivity.
Qed.

(** C6: the first frame of a path-prefixed split is not bounded by 255
    bytes: [chunkSize] ignores the path prefix, so for the five-component
    path [44'/919'/0'/0/0] (a 21-byte prefix) and 300 payload bytes the
    frames are 276 and 45 bytes long, and the first one carries 255 payload
    bytes, not [255 - 21]. *)
Theorem first_frame_exceeds_255 :
  derivationPathBuffer (splitPath examplePath)
    = Ok (x05 :: concat (map (beBytes 4) [2147483692; 2147484567; 2147483648; 0; 0])) /\
  exists frames,
    serializeTransactionPayloadsWithDerivationPath examplePath (repeat x07 300) = Ok frames /\
    map (@length byte) frames = [276%nat; 45%nat] /\
    frames = [(x05 :: concat (map (beBytes 4) [2147483692; 2147484567; 2147483648; 0; 0]))
                ++ repeat x07 255; repeat x07 45].
Proof.
  split; [vm_compute; reflexivity|].
  eexists; split; [vm_compute; reflexivity|]. split; vm_compute; reflexivity.
Qed.

Lemma encodeWord16_length (v : Q) (b : list byte) : encodeWord16 v = Ok b -> length b = 2%nat.
Proof.
  unfold encodeWord16. destruct (_ || _); intros H; [discriminate|].
  injection H as <-. reflexivity.
Qed.

Lemma encodeDataBlob_skip (d s : list byte) : encodeDataBlob d = Ok s -> skipn 2 s = d.
Proof.
  unfold encodeDataBlob. intros H. bind_inv H. injection H as <-.
  apply encodeWord16_length in E.
  rewrite skipn_app, skipn_all2 by lia. rewrite E. reflexivity.
Qed.

Lemma serializeTransactionPayloads_nil_iff (rawTx : list byte) :
  serializeTransactionPayloads rawTx = [] <-> rawTx = [].
Proof.
  split.
  - intros H. rewrite <- (serializeTransactionPayloads_concat rawTx), H. reflexivity.
  - intros ->. reflexivity.
Qed.

Lemma memo_stage_frames (path : string) (txn : MemoTxn) (out : MemoFrames) :
  fst (serializeSimpleTransferWithMemo path txn) = Ok out ->
  exists memo,
    bufferFromField (mp_memo (mt_payload txn)) = Ok memo /\
    payloadsMemo out = serializeTransactionPayloads memo /\
    payloadsAmount out = [beBytes 8 (mp_amount (mt_payload txn))].
Proof.
  unfold serializeSimpleTransferWithMemo. intros H.
  destruct (bufferFromField _) as [m|e] eqn:Hm; [|discriminate]. blob_inv H.
  bind_inv H. injection H as <-. cbn [payloadsMemo payloadsAmount].
  cbn [blobData mt_payload mp_memo mp_amount setMemo] in *. injection E0 as <-.
  exists m. split; [reflexivity|]. split.
  - destruct (subarray_first2 a1) as [_ ->]. now rewrite (encodeDataBlob_skip _ _ E1).
  - apply encodeWord64_ok in E. subst a.
    apply serializeTransactionPayloads_single. rewrite beBytes_length.
    unfold MAX_CHUNK_SIZE. lia.
Qed.

Lemma data_stage_frames (path : string) (txn : DataTxn) (out : DataFrames) :
  fst (serializeRegisterData path txn) = Ok out ->
  exists data,
    bufferFromField (dt_data txn) = Ok data /\
    payloadsData out = serializeTransactionPayloads data.
Proof.
  unfold serializeRegisterData. intros H.
  destruct (bufferFromField _) as [m|e] eqn:Hm; [|discriminate]. blob_inv H.
  bind_inv H. injection H as <-. cbn [payloadsData].
  cbn [blobData dt_data] in *. injection E as <-.
  exists m. split; [reflexivity|].
  destruct (subarray_first2 a0) as [_ ->]. now rewrite (encodeDataBlob_skip _ _ E0).
Qed.

(** C7 (as amended): the frame splitter yields no frame at all for the empty
    input and at least one frame for every non-empty input.  So at the memo
    stage of a transfer with memo (and the data stage of register data)
    there is no [frames[0]] exactly when the memo (data) is empty, while the
    amount stage always has exactly one 8-byte frame. *)
Theorem empty_input_no_frame :
  (forall rawTx, serializeTransactionPayloads rawTx = [] <-> rawTx = []) /\
  (forall path txn out, fst (serializeSimpleTransferWithMemo path txn) = Ok out ->
     payloadsAmount out = [beBytes 8 (mp_amount (mt_payload txn))] /\
     (nth_error (payloadsMemo out) 0 = None <->
      bufferFromField (mp_memo (mt_payload txn)) = Ok [])) /\
  (forall path txn out, fst (serializeRegisterData path txn) = Ok out ->
     (nth_error (payloadsData out) 0 = None <-> bufferFromField (dt_data txn) = Ok [])).
Proof.
  assert (Hn : forall l : list (list byte), nth_error l 0 = None <-> l = []).
  { intros [|x l]; cbn; split; congruence. }
  split; [exact serializeTransactionPayloads_nil_iff|]. split.
  - intros path txn out H. destruct (memo_stage_frames _ _ _ H) as (m & Hm & Hmemo & Hamt).
    split; [exact Hamt|]. rewrite Hn, Hmemo, Hm, serializeTransactionPayloads_nil_iff.
    split; [intros ->; reflexivity | congruence].
  - intros path txn out H. destruct (data_stage_frames _ _ _ H) as (m & Hm & Hdata).
    rewrite Hn, Hdata, Hm, serializeTransactionPayloads_nil_iff.
    split; [intros ->; reflexivity | congruence].
Qed.

Lemma empty_input_no_frame_witness :
  (serializeTransactionPayloads [] = [] <-> @nil byte = []) /\
  (exists out, fst (serializeSimpleTransferWithMemo examplePath exampleEmptyMemoTxn) = Ok out /\
     payloadsAmount out = [beBytes 8 1000] /\
     (nth_error (payloadsMemo out) 0 = None <-> bufferFromField (JsString EmptyString) = Ok [])) /\
  (exists out, fst (serializeRegisterData examplePath exampleDataTxn) = Ok out /\
     (nth_error (payloadsData out) 0 = None <-> bufferFromField (JsString "data") = Ok [])).
Proof.
  destruct empty_input_no_frame as (P1 & P2 & P3).
  split; [exact (P1 [])|]. split.
  - eexists; split; [vm_compute; reflexivity|].
    exact (P2 examplePath exampleEmptyMemoTxn _ eq_refl).
  - eexists; split; [vm_compute; reflexivity|].
    exact (P3 examplePath exampleDataTxn _ eq_refl).
Defined.

(** C7, counterexample: on the empty input the splitter returns no frame, and
    the memo stage of a transfer with an empty memo has no [frames[0]]. *)
Lemma empty_input_counterexample :
  serializeTransactionPayloads [] = [] /\
  exists out,
    fst (serializeSimpleTransferWithMemo examplePath exampleEmptyMemoTxn) = Ok out /\
    nth_error (payloadsMemo out) 0 = None.
Proof.
  split; [reflexivity|]. eexists; split; [vm_compute; reflexivity|]. reflexivity.
Qed.

Lemma mapM_writeUInt32BE (l : list Z) :
  Forall (fun n => 0 <= n <= 4294967295) l ->
  mapM writeUInt32BE l = Ok (map (beBytes 4) l).
Proof.
  induction 1 as [|n l Hn Hl IH]; [reflexivity|].
  cbn [mapM map]. unfold writeUInt32BE at 1.
  destruct (Z.ltb_spec n 0), (Z.ltb_spec 4294967295 n); try lia. cbn [orb bind].
  rewrite IH. reflexivity.
Qed.

Lemma concat_beBytes4_length (l : list Z) :
  length (concat (map (beBytes 4) l)) = (4 * length l)%nat.
Proof.
  induction l as [|n l IH]; [reflexivity|].
  cbn [map concat]. rewrite length_app, IH, beBytes_length. cbn [length]. lia.
Qed.

(** C8 (as amended): [splitPath] keeps only the components on which
    [parseInt] finds a leading integer (adding [0x80000000] to hardened ones)
    and skips the others without an error; when the [k <= 255] kept
    components all lie in [[0, 2^32)], the path prefix and [serializePath]
    are the [1 + 4k] bytes: the count [k], then each component in 32-bit
    big-endian order. *)
Theorem path_encoding (path : string) :
  Forall (fun n => 0 <= n <= 4294967295) (splitPath path) ->
  (length (splitPath path) <= 255)%nat ->
  let encoded := byteOfZ (Z.of_nat (length (splitPath path)))
                   :: concat (map (beBytes 4) (splitPath path)) in
  derivationPathBuffer (splitPath path) = Ok encoded /\
  serializePath (splitPath path) = Ok encoded /\
  length encoded = (1 + 4 * length (splitPath path))%nat.
Proof.
  intros Hr Hk encoded.
  unfold derivationPathBuffer, serializePath. rewrite (mapM_writeUInt32BE _ Hr).
  destruct (Z.ltb_spec 255 (Z.of_nat (length (splitPath path)))); [lia|].
  split; [reflexivity|]. split; [reflexivity|].
  unfold encoded. cbn [length]. rewrite concat_beBytes4_length. lia.
Qed.

Lemma path_encoding_witness :
  Forall (fun n => 0 <= n <= 4294967295) (splitPath examplePath) /\
  (length (splitPath examplePath) <= 255)%nat /\
  derivationPathBuffer (splitPath examplePath)
    = Ok (byteOfZ 5 :: concat (map (beBytes 4) [2147483692; 2147484567; 2147483648; 0; 0])) /\
  serializePath (splitPath examplePath)
    = Ok (byteOfZ 5 :: concat (map (beBytes 4) [2147483692; 2147484567; 2147483648; 0; 0])) /\
  length (byteOfZ 5 :: concat (map (beBytes 4) [2147483692; 2147484567; 2147483648; 0; 0]))
    = 21%nat.
Proof.
  assert (Hs : splitPath examplePath = [2147483692; 2147484567; 2147483648; 0; 0])
    by (vm_compute; reflexivity).
  assert (Hr : Forall (fun n => 0 <= n <= 4294967295) (splitPath examplePath))
    by (rewrite Hs; repeat constructor; lia).
  assert (Hk : (length (splitPath examplePath) <= 255)%nat) by (rewrite Hs; cbn; lia).
  split; [exact Hr|]. split; [exact Hk|].
  exact (path_encoding examplePath Hr Hk).
Defined.

(** C8, counterexample: a non-numeric component does not make the path
    encoder fail: [44'/abc/0] is encoded as the two-component path
    [44', 0]. *)
Lemma path_nonnumeric_counterexample :
  splitPath "44'/abc/0" = [2147483692; 0] /\
  derivationPathBuffer (splitPath "44'/abc/0")
    = Ok (byteOfZ 2 :: beBytes 4 2147483692 ++ beBytes 4 0).
Proof. split; vm_compute; reflexivity. Qed.

(** C10 (as amended): the memo, schedule-and-memo and register-data
    serializers replace the string in [txn.payload.memo] (resp.
    [txn.payload.data]) with a [DataBlob] of its UTF-8 bytes when these are
    at most 256 bytes, whatever the rest of the call does: the caller's
    object no longer holds the string, and a second call on the same object
    fails in [Buffer.from] with a type error. When the UTF-8 bytes are more
    than 256, the [DataBlob] constructor throws before the assignment: the
    call fails and the object is left unchanged. *)
Theorem serializers_mutate_txn_amended :
  (forall path txn s, mp_memo (mt_payload txn) = JsString s ->
     let txn' := snd (serializeSimpleTransferWithMemo path txn) in
     ((length (utf8Encode s) <= 256)%nat ->
        txn' = setMemo txn (JsDataBlob (utf8Encode s)) /\
        mp_memo (mt_payload txn') <> JsString s /\
        fst (serializeSimpleTransferWithMemo path txn') = Throw TypeErr) /\
     ((256 < length (utf8Encode s))%nat ->
        txn' = txn /\
        fst (serializeSimpleTransferWithMemo path txn) = Throw DataBlobTooLong)) /\
  (forall path txn s, smp_memo (smt_payload txn) = JsString s ->
     let txn' := snd (serializeTransferWithScheduleAndMemo path txn) in
     ((length (utf8Encode s) <= 256)%nat ->
        txn' = setScheduleMemo txn (JsDataBlob (utf8Encode s)) /\
        smp_memo (smt_payload txn') <> JsString s /\
        fst (serializeTransferWithScheduleAndMemo path txn') = Throw TypeErr) /\
     ((256 < length (utf8Encode s))%nat ->
        txn' = txn /\
        fst (serializeTransferWithScheduleAndMemo path txn) = Throw DataBlobTooLong)) /\
  (forall path txn s, dt_data txn = JsString s ->
     let txn' := snd (serializeRegisterData path txn) in
     ((length (utf8Encode s) <= 256)%nat ->
        txn' = {| dt_header := dt_header txn; dt_data := JsDataBlob (utf8Encode s) |} /\
        dt_data txn' <> JsString s /\
        fst (serializeRegisterData path txn') = Throw TypeErr) /\
     ((256 < length (utf8Encode s))%nat ->
        txn' = txn /\ fst (serializeRegisterData path txn) = Throw DataBlobTooLong)).
Proof.
  split; [|split]; intros path txn s H;
    (unfold serializeSimpleTransferWithMemo, serializeTransferWithScheduleAndMemo,
      serializeRegisterData;
    rewrite H; cbn [bufferFromField];
    change (newDataBlob (utf8Encode s)) with
      (if (256 <? length (utf8Encode s))%nat then Throw DataBlobTooLong
       else Ok (JsDataBlob (utf8Encode s)));
    destruct (Nat.ltb_spec 256 (length (utf8Encode s))) as [Hl|Hl];
    [ split; [intros Hc; lia | intros _; split; reflexivity]
    | split; [intros _ | intros Hc; lia];
      split; [reflexivity | split; [discriminate | reflexivity]] ]).
Qed.

Lemma serializers_mutate_txn_amended_witness :
  snd (serializeSimpleTransferWithMemo examplePath exampleMemoTxn)
    = setMemo exampleMemoTxn (JsDataBlob [x68; x65; x6c; x6c; x6f]) /\
  fst (serializeSimpleTransferWithMemo examplePath
         (snd (serializeSimpleTransferWithMemo examplePath exampleMemoTxn))) = Throw TypeErr /\
  snd (serializeTransferWithScheduleAndMemo examplePath (exampleScheduleMemoTxn 3))
    = setScheduleMemo (exampleScheduleMemoTxn 3) (JsDataBlob [x68; x65; x6c; x6c; x6f]) /\
  fst (serializeRegisterData examplePath
         (snd (serializeRegisterData examplePath exampleDataTxn))) = Throw TypeErr /\
  snd (serializeSimpleTransferWithMemo examplePath exampleLongMemoTxn) = exampleLongMemoTxn /\
  fst (serializeSimpleTransferWithMemo examplePath exampleLongMemoTxn) = Throw DataBlobTooLong.
Proof.
  destruct serializers_mutate_txn_amended as (P1 & P2 & P3).
  destruct (P1 examplePath exampleMemoTxn "hello"%string eq_refl) as [A _].
  destruct (A ltac:(apply Nat.leb_le; vm_compute; reflexivity)) as (A1 & _ & A3).
  destruct (P2 examplePath (exampleScheduleMemoTxn 3) "hello"%string eq_refl) as [B _].
  destruct (B ltac:(apply Nat.leb_le; vm_compute; reflexivity)) as (B1 & _ & _).
  destruct (P3 examplePath exampleDataTxn "data"%string eq_refl) as [C _].
  destruct (C ltac:(apply Nat.leb_le; vm_compute; reflexivity)) as (_ & _ & C3).
  destruct (P1 examplePath exampleLongMemoTxn longMemo eq_refl) as [_ D].
  destruct (D ltac:(vm_compute; reflexivity)) as [D1 D2].
  split; [exact A1|]. split; [exact A3|]. split; [exact B1|]. split; [exact C3|].
  split; [exact D1 | exact D2].
Defined.

(** C10, counterexample: a memo (resp. data) string of 257 ASCII characters
    does not end up in a [DataBlob]: [new DataBlob] throws before the
    assignment, so the call fails and the transaction keeps its string. *)
Lemma serializers_mutate_txn_counterexample :
  length (utf8Encode longMemo) = 257%nat /\
  fst (serializeSimpleTransferWithMemo examplePath exampleLongMemoTxn) = Throw DataBlobTooLong /\
  snd (serializeSimpleTransferWithMemo examplePath exampleLongMemoTxn) = exampleLongMemoTxn /\
  mp_memo (mt_payload (snd (serializeSimpleTransferWithMemo examplePath exampleLongMemoTxn)))
    = JsString longMemo /\
  fst (serializeRegisterData examplePath exampleLongDataTxn) = Throw DataBlobTooLong /\
  snd (serializeRegisterData examplePath exampleLongDataTxn) = exampleLongDataTxn.
Proof.
  split; [vm_compute; reflexivity|]. split; [vm_compute; reflexivity|].
  split; [vm_compute; reflexivity|]. split; [vm_compute; reflexivity|].
  split; vm_compute; reflexivity.
Qed.

Lemma subarray_mid (a b c : list byte) (st en : Z) :
  st = Z.of_nat (length a) -> en = st + Z.of_nat (length b) ->
  subarray (a ++ b ++ c) st en = b.
Proof.
  intros -> ->. unfold subarray, relIndex. rewrite !length_app.
  replace (Z.of_nat (length a) <? 0) with false by (symmetry; apply Z.ltb_ge; lia).
  replace (Z.of_nat (length a) + Z.of_nat (length b) <? 0) with false
    by (symmetry; apply Z.ltb_ge; lia).
  rewrite !Z.min_l by lia.
  replace (Z.to_nat (Z.of_nat (length a))) with (length a) by lia.
  replace (Z.to_nat (Z.of_nat (length a) + Z.of_nat (length b) - Z.of_nat (length a)))
    with (length b) by lia.
  rewrite skipn_app, skipn_all, Nat.sub_diag. cbn [skipn app].
  rewrite firstn_app, firstn_all, Nat.sub_diag. cbn [firstn]. apply app_nil_r.
Qed.

Lemma subarray_prefix (l : list byte) (m : nat) :
  (m <= length l)%nat ->
  subarray l 0 (Z.of_nat m) = firstn m l /\ subarrayFrom l (Z.of_nat m) = skipn m l.
Proof.
  intros Hm. unfold subarrayFrom, subarray, relIndex.
  replace (0 <? 0) with false by reflexivity.
  replace (Z.of_nat m <? 0) with false by (symmetry; apply Z.ltb_ge; lia).
  replace (Z.of_nat (length l) <? 0) with false by (symmetry; apply Z.ltb_ge; lia).
  rewrite (Z.min_l 0) by lia. rewrite (Z.min_l (Z.of_nat m)) by lia. rewrite Z.min_id.
  split.
  - replace (Z.to_nat (Z.of_nat m - 0)) with m by lia. reflexivity.
  - replace (Z.to_nat (Z.of_nat m)) with m by lia.
    apply firstn_all2. rewrite length_skipn. lia.
Qed.

Lemma withPath_single (path : string) (rawTx : list byte) (frames : list (list byte)) :
  (0 < length rawTx <= MAX_CHUNK_SIZE)%nat ->
  serializeTransactionPayloadsWithDerivationPath path rawTx = Ok frames ->
  exists pathBuffer,
    derivationPathBuffer (splitPath path) = Ok pathBuffer /\ frames = [pathBuffer ++ rawTx].
Proof.
  intros Hl H. unfold serializeTransactionPayloadsWithDerivationPath in H.
  destruct (derivationPathBuffer (splitPath path)) as [pb|e]; [|discriminate].
  cbn [bind] in H.
  assert (Hf : frames = payloadsWithPathLoop (S (length rawTx)) pb rawTx 0) by congruence.
  subst frames. exists pb. split; [reflexivity|].
  rewrite payloadsWithPathLoop_first.
  change (payloadsLoop (S (length rawTx)) rawTx 0) with (serializeTransactionPayloads rawTx).
  rewrite serializeTransactionPayloads_single by exact Hl. reflexivity.
Qed.

Lemma configureBakerPayload_stakeAndKeys (s : Z) (k pb : list byte) :
  serializeConfigureBakerPayload (stakeAndKeys s k) = Ok pb ->
  pb = beBytes 2 9 ++ beBytes 8 s ++ k.
Proof.
  unfold serializeConfigureBakerPayload.
  change (encodeWord16 (inject_Z (configureBakerBitmap (stakeAndKeys s k))))
    with (Ok (A := list byte) (beBytes 2 9)).
  cbn [bind optField stakeAndKeys cb_stake cb_restakeEarnings cb_openForDelegation cb_keys
       cb_metadataUrl cb_transactionFeeCommission cb_bakingRewardCommission
       cb_finalizationRewardCommission].
  destruct (encodeWord64 s) as [st|e] eqn:E; cbn [bind]; intros H; [|discriminate].
  injection H as <-. apply encodeWord64_ok in E. subst st. rewrite !app_nil_r. reflexivity.
Qed.

(** C9: for a configure-baker transaction whose payload object has only the
    [stake] and [keys] fields (bitmap [0b1001]), the canonical payload is the
    bitmap, the 8-byte stake and the 352 key bytes; the slicer reads the
    stake at offset 63 and the keys at offset 71 of the serialized
    transaction, where the serializer wrote them, so the first batch is the
    stake followed by the first 192 key bytes, the aggregation-key stage the
    remaining 160 key bytes, and the URL-length, URL and commission stages are
    empty; the first stage is the path prefix, the header, the kind and the
    bitmap. *)
Theorem configure_baker_stake_and_keys (path : string) (h : TxHeader) (s : Z)
  (k : list byte) (out : ConfigureBakerFrames) :
  length (sender h) = 32%nat -> length k = 352%nat ->
  serializeConfigureBaker path {| cbt_header := h; cbt_payload := stakeAndKeys s k |} = Ok out ->
  serializeConfigureBakerPayload (stakeAndKeys s k) = Ok (beBytes 2 9 ++ beBytes 8 s ++ k) /\
  payloadFirstBatch out = beBytes 8 s ++ firstn 192 k /\
  payloadAggregationKeys out = skipn 192 k /\
  length (payloadFirstBatch out ++ payloadAggregationKeys out) = 360%nat /\
  payloadUrlLength out = [] /\ payloadURL out = [] /\ payloadCommissionFee out = [] /\
  exists pathBuffer,
    derivationPathBuffer (splitPath path) = Ok pathBuffer /\
    payloadHeaderKindAndBitmap out
      = Some (pathBuffer ++ headerLayout h 363 ++ serializedTypeOf h ++ beBytes 2 9).
Proof.
  intros Hs Hk H. unfold serializeConfigureBaker in H. cbn [cbt_payload cbt_header] in H.
  bind_inv H.
  cbn [takeField takeUrl hasOwnProperty stakeAndKeys cb_stake cb_restakeEarnings
       cb_openForDelegation cb_keys cb_metadataUrl cb_transactionFeeCommission
       cb_bakingRewardCommission cb_finalizationRewardCommission fst snd] in H, E1.
  injection E1 as <-. injection H as <-.
  cbn [payloadFirstBatch payloadAggregationKeys payloadUrlLength payloadURL
       payloadCommissionFee payloadHeaderKindAndBitmap fst snd].
  pose proof E as Ep. apply configureBakerPayload_stakeAndKeys in Ep. subst a.
  apply size_account in E0. subst a0.
  assert (H363 : Z.of_nat (length (beBytes 2 9 ++ beBytes 8 s ++ k) + 1) = 363)
    by (rewrite !length_app, !beBytes_length, Hk; reflexivity).
  rewrite H363 in E2 |- *.
  change (HEADER_LENGTH + TRANSACTION_KIND_LENGTH + BITMAP_LENGTH) with 63 in *.
  change (63 + STAKING_PAYLOAD_LENGTH) with 71.
  change (71 + KEYS_PAYLOAD_LENGTH) with 423.
  change KEYS_ELECTION_AND_SIGNATURE_LENGTH with 192.
  assert (Hh : length (headerLayout h 363) = 60%nat)
    by (unfold headerLayout; rewrite !length_app, !beBytes_length; lia).
  set (hdr := headerLayout h 363) in *.
  assert (Hty : length (serializedTypeOf h) = 1%nat) by reflexivity.
  set (ty := serializedTypeOf h) in *.
  assert (S1 : subarray (hdr ++ ty ++ beBytes 2 9 ++ beBytes 8 s ++ k) 71 423 = k).
  { replace (hdr ++ ty ++ beBytes 2 9 ++ beBytes 8 s ++ k)
      with ((hdr ++ ty ++ beBytes 2 9 ++ beBytes 8 s) ++ k ++ []) by
      (rewrite app_nil_r, <- !app_assoc; reflexivity).
    apply subarray_mid; rewrite ?length_app, ?beBytes_length, ?Hk, ?Hh, ?Hty; lia. }
  assert (S2 : subarray (hdr ++ ty ++ beBytes 2 9 ++ beBytes 8 s ++ k) 63 71 = beBytes 8 s).
  { replace (hdr ++ ty ++ beBytes 2 9 ++ beBytes 8 s ++ k)
      with ((hdr ++ ty ++ beBytes 2 9) ++ beBytes 8 s ++ k) by
      (rewrite <- !app_assoc; reflexivity).
    apply subarray_mid; rewrite ?length_app, ?beBytes_length, ?Hh, ?Hty; lia. }
  assert (S3 : subarray (hdr ++ ty ++ beBytes 2 9 ++ beBytes 8 s ++ k) 0 63
               = hdr ++ ty ++ beBytes 2 9).
  { replace (hdr ++ ty ++ beBytes 2 9 ++ beBytes 8 s ++ k)
      with ([] ++ (hdr ++ ty ++ beBytes 2 9) ++ (beBytes 8 s ++ k)) by
      (rewrite <- !app_assoc; reflexivity).
    apply subarray_mid; rewrite ?length_app, ?beBytes_length, ?Hh, ?Hty; cbn [length]; lia. }
  rewrite S1, S2. rewrite S3 in E2.
  split; [first [exact E | reflexivity]|].
  assert (Hk192 : (192 <= length k)%nat) by lia.
  destruct (subarray_prefix k 192 Hk192) as [K1 K2].
  change 192 with (Z.of_nat 192). rewrite K1, K2.
  split; [reflexivity|]. split; [reflexivity|].
  split; [rewrite !length_app, beBytes_length, length_firstn, length_skipn, Hk; reflexivity|].
  split; [reflexivity|]. split; [reflexivity|]. split; [reflexivity|].
  assert (Hlen : (0 < length (hdr ++ ty ++ beBytes 2 9) <= MAX_CHUNK_SIZE)%nat).
  { rewrite !length_app, beBytes_length, Hh, Hty. unfold MAX_CHUNK_SIZE. clearbody hdr ty. lia. }
  destruct (withPath_single path _ _ Hlen E2) as (pb & Hpb & ->).
  exists pb. split; [exact Hpb | reflexivity].
Qed.

Lemma configure_baker_stake_and_keys_witness :
  exists out,
    serializeConfigureBaker examplePath
      {| cbt_header := exampleHeader 25; cbt_payload := stakeAndKeys 5000 (repeat x09 352) |}
      = Ok out /\
    payloadFirstBatch out = beBytes 8 5000 ++ firstn 192 (repeat x09 352) /\
    payloadAggregationKeys out = skipn 192 (repeat x09 352) /\
    payloadURL out = [] /\ payloadCommissionFee out = [].
Proof.
  eexists. split; [vm_compute; reflexivity|].
  destruct (configure_baker_stake_and_keys examplePath (exampleHeader 25) 5000
              (repeat x09 352) _ eq_refl eq_refl eq_refl)
    as (_ & F1 & F2 & _ & _ & F3 & F4 & _).
  split; [exact F1|]. split; [exact F2|]. split; [exact F3 | exact F4].
Defined.

Lemma runStages_terminal (transport : Transport) (stages : list (result Apdu)) :
  forall hist response r,
  runStages transport hist stages response = Ok (Some r) ->
  response = Some r \/
  exists hist' a, In (Ok a) stages /\ sendToDevice transport hist' a = Ok r.
Proof.
  induction stages as [|[a|e] rest IH]; intros hist response r H; cbn [runStages] in H.
  - left. congruence.
  - destruct (sendToDevice transport hist a) as [r0|e] eqn:E; cbn [bind] in H; [|discriminate].
    destruct (IH _ _ _ H) as [Hr | (hist' & a' & Hin & Ha')].
    + right. exists hist, a. split; [left; reflexivity|]. congruence.
    + right. exists hist', a'. split; [right; exact Hin | exact Ha'].
  - discriminate.
Qed.

Lemma sign_decline_check (transport : Transport) (op : SignOp) :
  sign transport op =
  match terminalResponse transport op with
  | Ok response => declineCheck response
  | Throw e => Throw e
  end.
Proof. unfold sign. destruct (terminalResponse transport op); reflexivity. Qed.

(** C4: for every signing operation (every transaction kind, whatever number
    of stages it sends) and every device behaviour, the terminal response is
    the reply of the device to one of the operation's commands with its
    status word removed, and when that response is exactly one byte long the
    operation fails with the user-declined error and returns no signature;
    so a signature is never one byte long. *)
Theorem declined_on_one_byte_reply (transport : Transport) (op : SignOp) :
  (forall r, terminalResponse transport op = Ok (Some r) ->
     exists stages hist a, signStages op = Ok stages /\ In (Ok a) stages /\
       sendToDevice transport hist a = Ok r) /\
  (forall r, terminalResponse transport op = Ok (Some r) -> length r = 1%nat ->
     sign transport op = Throw UserDeclined /\ forall s, sign transport op <> Ok s) /\
  (forall s, sign transport op = Ok s ->
     terminalResponse transport op = Ok (Some s) /\ length s <> 1%nat).
Proof.
  split; [|split].
  - intros r H. unfold terminalResponse in H.
    destruct (signStages op) as [stages|e]; cbn [bind] in H; [|discriminate].
    destruct (runStages_terminal transport stages [] None r H) as [Hn | (hist & a & Hin & Ha)];
      [discriminate|].
    exists stages, hist, a. auto.
  - intros r H Hl. rewrite sign_decline_check, H. cbn [declineCheck].
    rewrite Hl. cbn. split; [reflexivity | discriminate].
  - intros s H. rewrite sign_decline_check in H.
    destruct (terminalResponse transport op) as [[r|]|e]; cbn [declineCheck] in H;
      try discriminate.
    destruct (length r =? 1)%nat eqn:E; [discriminate|].
    injection H as <-. split; [reflexivity|]. apply Nat.eqb_neq, E.
Qed.

Lemma declined_on_one_byte_reply_witness :
  terminalResponse (replyWith [x00]) (SignTransferWithSchedule examplePath (exampleScheduleTxn 3))
    = Ok (Some [x00]) /\
  sign (replyWith [x00]) (SignTransferWithSchedule examplePath (exampleScheduleTxn 3))
    = Throw UserDeclined /\
  terminalResponse (replyWith [x00]) (SignTransfer (exampleHeader 0) examplePayload examplePath)
    = Ok (Some [x00]) /\
  sign (replyWith [x00]) (SignTransfer (exampleHeader 0) examplePayload examplePath)
    = Throw UserDeclined.
Proof.
  assert (H1 : terminalResponse (replyWith [x00])
                 (SignTransferWithSchedule examplePath (exampleScheduleTxn 3))
               = Ok (Some [x00])) by (vm_compute; reflexivity).
  assert (H2 : terminalResponse (replyWith [x00])
                 (SignTransfer (exampleHeader 0) examplePayload examplePath)
               = Ok (Some [x00])) by (vm_compute; reflexivity).
  split; [exact H1|]. split.
  - exact (proj1 (proj1 (proj2 (declined_on_one_byte_reply (replyWith [x00])
             (SignTransferWithSchedule examplePath (exampleScheduleTxn 3)))) [x00] H1 eq_refl)).
  - split; [exact H2|].
    exact (proj1 (proj1 (proj2 (declined_on_one_byte_reply (replyWith [x00])
             (SignTransfer (exampleHeader 0) examplePayload examplePath))) [x00] H2 eq_refl)).
Defined.
